(** * Task scheduler front end ([with_gui.py]): the task request translator

    A shallow embedding of the four functions the graphical form and the
    command line share,

      - [parse_iso_duration]            (with_gui.py, lines 14-21)
      - [format_duration_for_schtasks]  (lines 24-28)
      - [get_existing_task_details]     (lines 31-52)
      - [schedule_task]                 (lines 55-81)

    together with the Python primitives they call.

    Of the form itself, the slot [TaskSchedulerApp.schedule] (lines
    199-216) and the placement of the window, [TaskSchedulerApp.center]
    (lines 186-192), are embedded as well; the widgets, the file dialogs
    and the parser of the command line are not.

      - Text is Python [str] restricted to code points below 256, so that
        a character is an [ascii]; integers are [Z]; the dictionary of
        task details is a [gmap].
      - The float returned by [timedelta.total_seconds] is a binary64
        value of the standard library's [SpecFloat], obtained by its
        correctly rounded division.
      - The operating system is an explicit environment: what it does with
        each command line (the process exits with a code and two decoded
        outputs, or it cannot be started) and what the clock reads.  Every
        call of [subprocess.run] is recorded in a trace.
      - The [isodate] library is a parameter: its function
        [parse_duration] returns a [timedelta], returns a [Duration], or
        raises.
      - The range of years of [datetime] is not modelled. *)

From Stdlib Require Import ZArith Ascii String List Lia.
From Stdlib Require Import SpecFloat.
From stdpp Require Import base option list strings pretty gmap.

Local Open Scope Z_scope.

(** ** Python text primitives *)

Module PyStr.

(** The line feed, written [\n] in the source. *)
Definition nl : string := String "010" "".

(** [str.isspace] for one character (code points below 256). *)
Definition isspace (c : ascii) : bool :=
  let n := Z.of_N (N_of_ascii c) in
  ((9 <=? n) && (n <=? 13)) || ((28 <=? n) && (n <=? 32))
  || (n =? 133) || (n =? 160).

(** The line boundaries of [str.splitlines] (code points below 256). *)
Definition is_linebreak (c : ascii) : bool :=
  let n := Z.of_N (N_of_ascii c) in
  ((10 <=? n) && (n <=? 13)) || ((28 <=? n) && (n <=? 30)) || (n =? 133).

Definition is_cr (c : ascii) : bool := Z.of_N (N_of_ascii c) =? 13.
Definition is_lf (c : ascii) : bool := Z.of_N (N_of_ascii c) =? 10.

(** [s.startswith(p)] *)
Definition startswith (s p : string) : bool := String.prefix p s.

(** [sub in s] *)
Fixpoint contains (s sub : string) : bool :=
  String.prefix sub s ||
  match s with
  | "" => false
  | String _ r => contains r sub
  end.

(** [s.splitlines()]: a line ends at a line boundary ([\r\n] counts as
    one); the boundary is dropped and no empty last line is produced. *)
Fixpoint splitlines (s : string) : list string :=
  match s with
  | "" => []
  | String c r =>
      if is_linebreak c then
        "" :: (if is_cr c then
                 match r with
                 | String c' r' => if is_lf c' then splitlines r'
                                   else splitlines r
                 | "" => splitlines r
                 end
               else splitlines r)
      else
        match splitlines r with
        | [] => [String c ""]
        | l :: ls => String c l :: ls
        end
  end.

(** [s.split(sep, maxsplit)] for a one-character separator;
    [maxsplit = None] is the source's call without a limit. *)
Fixpoint split (sep : ascii) (maxsplit : option nat) (s : string)
  : list string :=
  match s with
  | "" => [""]
  | String c r =>
      if Ascii.eqb c sep && negb (bool_decide (maxsplit = Some 0%nat)) then
        "" :: split sep (Nat.pred <$> maxsplit) r
      else
        match split sep maxsplit r with
        | [] => [String c ""]
        | p :: ps => String c p :: ps
        end
  end.

Fixpoint lstrip (s : string) : string :=
  match s with
  | "" => ""
  | String c r => if isspace c then lstrip r else s
  end.

Definition rstrip (s : string) : string :=
  String.rev (lstrip (String.rev s)).

(** [s.strip()] *)
Definition strip (s : string) : string := rstrip (lstrip s).

(** Whether the character [c] occurs in [p]. *)
Fixpoint has_char (c : ascii) (p : string) : bool :=
match p with
| "" => false
| String a p' => Ascii.eqb a c || has_char c p'
end.

(** [s.zfill(width)] on a string of digits: zeros on the left. *)
Definition zfill (width : nat) (s : string) : string :=
  string_of_list_ascii (replicate (width - String.length s) "0"%char) +:+ s.

(** [str(n)] for an [int]. *)
Definition str_of_int (n : Z) : string := pretty n.

(** [f"{n:02}"]: sign-aware zero padding to a total width of two; the
    minus sign counts in the width. *)
Definition format_02 (n : Z) : string :=
  if n <? 0 then "-" +:+ zfill 1 (pretty (Z.abs n))
  else zfill 2 (pretty n).

End PyStr.

(** ** Binary64 floats, as far as [total_seconds] and [int] need them *)

Module PyFloat.

Definition prec : Z := 53.
Definition emax : Z := 1024.

(** An [int] seen as an (unrounded) binary number. *)
Definition of_int (n : Z) : spec_float :=
  match n with
  | Z0 => S754_zero false
  | Zpos p => S754_finite false p 0
  | Zneg p => S754_finite true p 0
  end.

(** [a / b] on two [int]s: the correctly rounded binary64 quotient. *)
Definition int_true_divide (a b : Z) : spec_float :=
  SFdiv prec emax (of_int a) (of_int b).

(** [int(x)]: truncation towards zero.  Python raises on infinities and
    NaN; [total_seconds] yields neither (see [total_seconds_finite]
    below), and they are sent to 0 here. *)
Definition to_int (x : spec_float) : Z :=
  match x with
  | S754_finite s m e =>
      let a := if 0 <=? e then Z.shiftl (Zpos m) e
               else Z.shiftr (Zpos m) (- e) in
      if s then - a else a
  | _ => 0
  end.

End PyFloat.

(** ** [datetime.timedelta] and [datetime.datetime] *)

Module PyTime.

(** A [timedelta] in its normal form: Python keeps [0 <= seconds < 86400],
    [0 <= microseconds < 10^6] and [|days| <= 999999999]. *)
Record timedelta := mk_timedelta {
  days : Z;
  seconds : Z;
  microseconds : Z
}.

Definition timedelta_wf (d : timedelta) : Prop :=
  -999999999 <= days d <= 999999999 /\
  0 <= seconds d < 86400 /\
  0 <= microseconds d < 1000000.

(** The span in microseconds, an exact integer. *)
Definition to_microseconds (d : timedelta) : Z :=
  (days d * 86400 + seconds d) * 1000000 + microseconds d.

(** The normal form of a span given in microseconds. *)
Definition of_microseconds (us : Z) : timedelta :=
  {| days := us / 86400000000;
     seconds := (us mod 86400000000) / 1000000;
     microseconds := us mod 1000000 |}.

(** [timedelta(hours=h, minutes=m, seconds=s)] on integers. *)
Definition timedelta_hms (h m s : Z) : timedelta :=
  of_microseconds ((h * 3600 + m * 60 + s) * 1000000).

(** [d.total_seconds()]:
    [((days * 86400 + seconds) * 10**6 + microseconds) / 10**6]. *)
Definition total_seconds (d : timedelta) : spec_float :=
  PyFloat.int_true_divide (to_microseconds d) 1000000.

(** A naive [datetime]: the day number and the time of day.  The range of
    years Python allows (1 to 9999) is not modelled. *)
Record datetime := mk_datetime {
  day_number : Z;
  hour : Z;
  minute : Z;
  second : Z;
  microsecond : Z
}.

Definition datetime_to_microseconds (t : datetime) : Z :=
  (((day_number t * 24 + hour t) * 60 + minute t) * 60 + second t) * 1000000
  + microsecond t.

Definition datetime_of_microseconds (us : Z) : datetime :=
  {| day_number := us / 86400000000;
     hour := (us / 3600000000) mod 24;
     minute := (us / 60000000) mod 60;
     second := (us / 1000000) mod 60;
     microsecond := us mod 1000000 |}.

(** [t + d] *)
Definition datetime_add (t : datetime) (d : timedelta) : datetime :=
  datetime_of_microseconds (datetime_to_microseconds t + to_microseconds d).

(** [t.strftime("%H:%M")] *)
Definition strftime_HM (t : datetime) : string :=
  PyStr.zfill 2 (pretty (hour t)) +:+ ":" +:+ PyStr.zfill 2 (pretty (minute t)).

End PyTime.

Import PyTime.

(** [format_duration_for_schtasks], lines 24-28. *)
Definition format_duration_for_schtasks (duration : timedelta) : string :=
  let total_seconds := PyFloat.to_int (total_seconds duration) in
  let hours := total_seconds / 3600 in
  let minutes := (total_seconds mod 3600) / 60 in
  PyStr.format_02 hours +:+ ":" +:+ PyStr.format_02 minutes.

(** ** Exceptions, the operating system and the effects of the program *)

Module Sys.

(** The exception classes the program raises or handles.  [OSError]
    stands for the failure to start a process ([FileNotFoundError] when
    the executable is missing). *)
Inductive exn : Type :=
| CalledProcessError (returncode : Z) (stdout stderr : string)
| ValueError (msg : string)
| IndexError (msg : string)
| OSError (msg : string).

(** [str(e)] for a [ValueError] built from one message. *)
Definition ValueError_str (msg : string) : string := msg.

(** The result of a computation that may raise. *)
Inductive outcome (A : Type) : Type :=
| Return (a : A)
| Raise (e : exn).
Arguments Return {A} a.
Arguments Raise {A} e.

Global Instance outcome_ret : MRet outcome := @Return.
Global Instance outcome_bind : MBind outcome := fun A B f m =>
  match m with
  | Return a => f a
  | Raise e => Raise e
  end.

(** [l[i]] on a list: [IndexError] when out of range. *)
Definition getitem {A} (l : list A) (i : nat) : outcome A :=
  match l !! i with
  | Some x => Return x
  | None => Raise (IndexError "list index out of range")
  end.

(** What the operating system does with a command line: the process runs
    and exits with a code and its two captured, decoded outputs, or it
    cannot be started at all. *)
Inductive process_end : Type :=
| Exited (returncode : Z) (stdout stderr : string)
| NotStarted (reason : string).

(** [subprocess.CompletedProcess] *)
Record CompletedProcess := {
  args : list string;
  returncode : Z;
  stdout : string;
  stderr : string
}.

(** The environment of one call: the answer of the operating system to
    each command line and the reading of the clock. *)
Record world := {
  run_process : list string -> process_end;
  clock : datetime
}.

(** The command lines handed to [subprocess.run], oldest first. *)
Definition trace := list (list string).

(** Computations of the program: they read the world, extend the trace
    and return or raise. *)
Definition M (A : Type) : Type := world -> trace -> outcome A * trace.

Global Instance M_ret : MRet M := fun A a _ tr => (Return a, tr).
Global Instance M_bind : MBind M := fun A B f m w tr =>
  match m w tr with
  | (Return a, tr') => f a w tr'
  | (Raise e, tr') => (Raise e, tr')
  end.

(** A pure computation inside the program. *)
Definition lift {A} (o : outcome A) : M A := fun _ tr => (o, tr).

(** [try: body / except ...: handler]; the handler answers [None] for
    the exceptions no [except] clause matches, which then propagate. *)
Definition try_except {A} (body : M A) (handler : exn -> option (M A))
  : M A := fun w tr =>
  match body w tr with
  | (Return a, tr') => (Return a, tr')
  | (Raise e, tr') =>
      match handler e with
      | Some h => h w tr'
      | None => (Raise e, tr')
      end
  end.

(** [subprocess.run(cmd, capture_output=True, text=True, check=True)] *)
Definition subprocess_run (cmd : list string) : M CompletedProcess :=
  fun w tr =>
    let tr' := tr ++ [cmd] in
    match run_process w cmd with
    | NotStarted reason => (Raise (OSError reason), tr')
    | Exited rc out err =>
        if rc =? 0 then
          (Return {| args := cmd; returncode := rc;
                     stdout := out; stderr := err |}, tr')
        else (Raise (CalledProcessError rc out err), tr')
    end.

(** [datetime.datetime.now()] *)
Definition datetime_now : M datetime := fun w tr => (Return (clock w), tr).

End Sys.

Import Sys.

(** ** The program *)

(** One turn of the loop of lines 38-46: the effect of one line of the
    query output on the dictionary. *)
Definition scan_line (details : gmap string string) (line : string)
  : outcome (gmap string string) :=
  if PyStr.startswith line "Task Name:" then
    v ← getitem (PyStr.split ":" (Some 1%nat) line) 1;
    mret (<["Task Name" := PyStr.strip v]> details)
  else if PyStr.startswith line "Task To Run:" then
    v ← getitem (PyStr.split ":" (Some 1%nat) line) 1;
    mret (<["Command Path" := PyStr.strip v]> details)
  else if PyStr.startswith line "Repeat: Every" then
    v ← getitem (PyStr.split " " (Some 2%nat) line) 2;
    i ← getitem (PyStr.split " " None (PyStr.strip v)) 0;
    mret (<["Interval" := i]> details)
  else if PyStr.startswith line "Duration:" then
    v ← getitem (PyStr.split ":" (Some 1%nat) line) 1;
    mret (<["Duration" := PyStr.strip v]> details)
  else
    mret details.

(** The loop of lines 38-46. *)
Fixpoint scan_lines (details : gmap string string) (lines : list string)
  : outcome (gmap string string) :=
  match lines with
  | [] => mret details
  | line :: rest =>
      details' ← scan_line details line;
      scan_lines details' rest
  end.

(** The command line of the query, line 33. *)
Definition query_cmd (task_name : string) : list string :=
  ["schtasks"; "/query"; "/tn"; task_name; "/fo"; "LIST"; "/v"].

(** [get_existing_task_details], lines 31-52. *)
Definition get_existing_task_details (task_name : string)
  : M (option (gmap string string)) :=
  try_except
    (result ← subprocess_run (query_cmd task_name);
     details ← lift (scan_lines ∅ (PyStr.splitlines (stdout result)));
     if bool_decide (details ≠ ∅) then mret (Some details) else mret None)
    (fun e =>
       match e with
       | CalledProcessError _ _ _ => Some (mret None)
       | _ => None
       end).

(** [d.get(key, default)] *)
Definition dict_get (d : gmap string string) (key fallback : string) : string :=
  default fallback (d !! key).

(** The message of lines 59-63. *)
Definition already_exists_message (existing_task : gmap string string)
  (task_name command_path : string) (interval : Z) (duration_str : string)
  : string :=
  "Task '" +:+ task_name +:+ "' already exists with the following details:"
  +:+ PyStr.nl
  +:+ "Task Name: " +:+ dict_get existing_task "Task Name" task_name
  +:+ PyStr.nl
  +:+ "Command Path: " +:+ dict_get existing_task "Command Path" command_path
  +:+ PyStr.nl
  +:+ "Interval (minutes): "
  +:+ dict_get existing_task "Interval" (PyStr.str_of_int interval)
  +:+ PyStr.nl
  +:+ "Duration (ISO 8601 format): "
  +:+ dict_get existing_task "Duration" duration_str.

(** The command line of the creation, lines 70-74. *)
Definition create_cmd (task_name command_path start_time : string)
  (interval : Z) (du_value : string) : list string :=
  ["schtasks"; "/create"; "/tn"; task_name;
   "/sc"; "DAILY"; "/tr"; command_path;
   "/st"; start_time; "/ri"; PyStr.str_of_int interval;
   "/du"; du_value; "/f"].

(** The two messages of lines 77 and 79. *)
Definition success_message (task_name out : string) : string :=
  "Task '" +:+ task_name +:+ "' scheduled successfully." +:+ PyStr.nl +:+ out.

Definition failure_message (task_name err : string) : string :=
  "Error scheduling task '" +:+ task_name +:+ "':" +:+ PyStr.nl +:+ err.

(** What [isodate.parse_duration] can do with a text: return a
    [datetime.timedelta], return an [isodate.Duration] (a span with years
    or months), or raise an exception [e], of which only [str(e)] is
    used. *)
Inductive isodate_result (Duration : Type) : Type :=
| IsoTimedelta (d : timedelta)
| IsoDuration (d : Duration)
| IsoRaised (message : string).
Arguments IsoTimedelta {Duration} d.
Arguments IsoDuration {Duration} d.
Arguments IsoRaised {Duration} message.

Section Translator.

(** The [isodate] library is not part of the program: its class
    [Duration] and its function [parse_duration] are parameters. *)
Context {Duration : Type}.
Variable isodate_parse_duration : string -> isodate_result Duration.

(** [parse_iso_duration], lines 14-21.  Both the exception of the
    library and the [ValueError] of line 18 are caught at line 20 and
    raised again as a [ValueError] with the prefixed message. *)
Definition parse_iso_duration (duration_str : string) : outcome timedelta :=
  match isodate_parse_duration duration_str with
  | IsoTimedelta duration => Return duration
  | IsoDuration _ =>
      Raise (ValueError ("Error parsing duration: "
                         +:+ ValueError_str "Invalid duration format."))
  | IsoRaised message =>
      Raise (ValueError ("Error parsing duration: " +:+ message))
  end.

(** The [try] block of lines 65-77 with its two handlers, lines 78-81:
    the path taken when no task of that name exists. *)
Definition create_task (task_name command_path : string) (interval : Z)
  (duration_str : string) : M string :=
  try_except
    (duration_td ← lift (parse_iso_duration duration_str);
     let du_value := format_duration_for_schtasks duration_td in
     now ← datetime_now;
     let start_time := strftime_HM (datetime_add now (timedelta_hms 0 1 0)) in
     let cmd :=
       create_cmd task_name command_path start_time interval du_value in
     result ← subprocess_run cmd;
     mret (success_message task_name (stdout result)))
    (fun e =>
       match e with
       | CalledProcessError _ _ err =>
           Some (mret (failure_message task_name err))
       | ValueError msg => Some (mret (ValueError_str msg))
       | _ => None
       end).

(** [schedule_task], lines 55-81.  [if existing_task:] holds for a
    dictionary that is not empty; [None] and the empty dictionary lead to
    the creation. *)
Definition schedule_task (task_name command_path : string) (interval : Z)
  (duration_str : string) : M string :=
  existing_task ← get_existing_task_details task_name;
  match existing_task with
  | Some details =>
      if bool_decide (details ≠ ∅) then
        mret (already_exists_message details
                task_name command_path interval duration_str)
      else create_task task_name command_path interval duration_str
  | None => create_task task_name command_path interval duration_str
  end.

End Translator.

(** The creation commands of a trace: the command lines whose second word
    is [/create]. *)
Definition is_create_cmd (cmd : list string) : bool :=
  bool_decide (cmd !! 1%nat = Some "/create").

Definition creations (tr : trace) : list (list string) :=
  filter (fun cmd => is_create_cmd cmd = true) tr.

(** One call, started on an empty trace: what it returns or raises, and
    the command lines it hands to the operating system. *)
Definition result_of {A} (m : M A) (w : world) : outcome A := fst (m w []).
Definition commands_of {A} (m : M A) (w : world) : trace := snd (m w []).

(** The start time of the creation, line 68: one minute after the clock. *)
Definition start_instant (w : world) : datetime :=
  datetime_add (clock w) (timedelta_hms 0 1 0).

(** The test of the four branches of lines 39-45. *)
Definition recognised (line : string) : bool :=
  PyStr.startswith line "Task Name:" || PyStr.startswith line "Task To Run:"
  || PyStr.startswith line "Repeat: Every" || PyStr.startswith line "Duration:".

(** The literal notice of line 77 that tells a success. *)
Definition success_notice : string := "scheduled successfully.".

(** ** Sample environments

    Concrete operating systems, clocks and a small stand-in for the
    [isodate] library, on which the properties below are exercised. *)

Module Samples.

(** A parser that knows a handful of texts the way [isodate] reads them
    and rejects every other text. *)
Definition isodate (text : string) : isodate_result unit :=
  if bool_decide (text = "PT3H") then IsoTimedelta (timedelta_hms 3 0 0)
  else if bool_decide (text = "PT90M") then IsoTimedelta (timedelta_hms 0 90 0)
  else if bool_decide (text = "PT0S") then IsoTimedelta (timedelta_hms 0 0 0)
  else if bool_decide (text = "-PT1H") then
    IsoTimedelta (timedelta_hms (-1) 0 0)
  else if bool_decide (text = "-PT0.5S") then
    IsoTimedelta (of_microseconds (-500000))
  else if bool_decide (text = "P1M") then IsoDuration tt
  else IsoRaised ("Unable to parse duration string '" +:+ text +:+ "'").

(** A clock reading: seven and a half minutes after two in the afternoon. *)
Definition afternoon : datetime :=
  {| day_number := 739000; hour := 14; minute := 7; second := 30;
     microsecond := 250000 |}.

(** Half a minute before midnight. *)
Definition before_midnight : datetime :=
  {| day_number := 739000; hour := 23; minute := 59; second := 30;
     microsecond := 0 |}.

(** The script the caller asks to run. *)
Definition script : string := "C:\scripts\backup.bat".

Definition is_query (cmd : list string) : bool :=
  bool_decide (cmd !! 1%nat = Some "/query").

(** An operating system that answers the query with [q] and any other
    command with [c]. *)
Definition os (q c : process_end) (t : datetime) : world :=
  {| run_process := fun cmd => if is_query cmd then q else c;
     clock := t |}.

Definition not_found : process_end :=
  Exited 1 "" "ERROR: The system cannot find the file specified.".

Definition created : process_end :=
  Exited 0 "SUCCESS: The scheduled task has successfully been created." "".

Definition denied : process_end :=
  Exited 1 "" "ERROR: Access is denied.".

(** No task of that name; the creation succeeds. *)
Definition fresh : world := os not_found created afternoon.

(** The same half a minute before midnight. *)
Definition fresh_at_night : world := os not_found created before_midnight.

(** No task of that name; the creation is refused. *)
Definition refusing : world := os not_found denied afternoon.

(** The tool is not installed. *)
Definition no_tool : world :=
  os (NotStarted "[WinError 2] The system cannot find the file specified")
     (NotStarted "[WinError 2] The system cannot find the file specified")
     afternoon.

(** A task whose listing carries all four keys. *)
Definition full_listing : string :=
  "Task Name: Backup" +:+ PyStr.nl +:+
  "Task To Run: C:\old\backup.bat" +:+ PyStr.nl +:+
  "Repeat: Every: 15 Minute(s)" +:+ PyStr.nl +:+
  "Duration: 02:00" +:+ PyStr.nl.

Definition listed : world := os (Exited 0 full_listing "") created afternoon.

(** What the lookup makes of that listing. *)
Definition listed_details : gmap string string :=
  {[ "Task Name" := "Backup"; "Command Path" := "C:\old\backup.bat";
     "Interval" := "15"; "Duration" := "02:00" ]}.

(** A listing in the layout of the verbose list format: the name is
    under [TaskName:] and the duration under [Repeat: Until: Duration:],
    so that neither is recognised. *)
Definition verbose_listing : string :=
  "HostName:      DESKTOP" +:+ PyStr.nl +:+
  "TaskName:      \Backup" +:+ PyStr.nl +:+
  "Task To Run:   C:\old\backup.bat" +:+ PyStr.nl +:+
  "Repeat: Every: 0 Hour(s), 15 Minute(s)" +:+ PyStr.nl +:+
  "Repeat: Until: Duration: 2 Hour(s), 0 Minute(s)" +:+ PyStr.nl.

Definition partly_listed : world :=
  os (Exited 0 verbose_listing "") created afternoon.

(** What the lookup makes of it: the interval is the first word after
    the key, the number of hours. *)
Definition partly_listed_details : gmap string string :=
  {[ "Command Path" := "C:\old\backup.bat"; "Interval" := "0" ]}.

(** A query that exits zero with nothing recognisable. *)
Definition unrecognised : world :=
  os (Exited 0 "INFO: scheduler is busy" "") created afternoon.

End Samples.

(** ** More of the program: what the lookup reads, the form and the window *)

(** [s.count(c)] for one character. *)
Fixpoint count_char (c : ascii) (s : string) : nat :=
  match s with
  | "" => 0%nat
  | String a r => ((if Ascii.eqb a c then 1 else 0) + count_char c r)%nat
  end.

(** A line of the query output on which line 44 fails: it starts with
    [Repeat: Every] and holds fewer than two spaces, so that
    [line.split(" ", 2)] has no item of index 2. *)
Definition short_repeat_line (line : string) : bool :=
  PyStr.startswith line "Repeat: Every"
  && Nat.ltb (count_char " " line) 2.

(** The keys of the dictionary of lines 37-46. *)
Definition details_keys : list string :=
  ["Task Name"; "Command Path"; "Interval"; "Duration"].

(** Whether every character of [s] passes the test [p]. *)
Fixpoint every (p : ascii -> bool) (s : string) : bool :=
  match s with
  | "" => true
  | String c r => p c && every p r
  end.

(** The three keys of the listing that end in a colon (lines 39, 41 and
    45), each with the key of the dictionary it is recorded under. *)
Definition colon_keys : list (string * string) :=
  [("Task Name:", "Task Name"); ("Task To Run:", "Command Path");
   ("Duration:", "Duration")].

(** ** The graphical form

    The slot [TaskSchedulerApp.schedule] (lines 199-216) and the
    placement of the window (lines 186-192).  Of the widgets only what
    the two methods read is kept: the texts of the four input fields, and
    the sizes of the screen and of the window.  A message box is an
    event of the form; the button that closes it plays no part. *)

Module PyInt.

(** The white space [int] skips around a literal (code points below
    256): the separators 28 to 31 are white space for [str.isspace] but
    not here. *)
Definition is_blank (c : ascii) : bool :=
  let n := Z.of_N (N_of_ascii c) in
  ((9 <=? n) && (n <=? 13)) || (n =? 32) || (n =? 133) || (n =? 160).

(** The value of a decimal digit. *)
Definition digit (c : ascii) : option Z :=
  let n := Z.of_N (N_of_ascii c) in
  if (48 <=? n) && (n <=? 57) then Some (n - 48) else None.

Definition is_digit (c : ascii) : bool :=
  match digit c with Some _ => true | None => false end.

(** The digits of a literal, most significant first, with the value
    read so far and the number of digits read so far; an underscore is
    accepted before a digit. *)
Fixpoint digits (s : string) (acc : Z) (count : nat) : option (Z * nat) :=
  match s with
  | "" => Some (acc, count)
  | String c r =>
      match digit c with
      | Some d => digits r (10 * acc + d) (S count)
      | None =>
          if Ascii.eqb c "_" then
            match r with
            | String c' _ => if is_digit c' then digits r acc count else None
            | "" => None
            end
          else None
      end
  end.

Fixpoint lskip (s : string) : string :=
  match s with
  | "" => ""
  | String c r => if is_blank c then lskip r else s
  end.

Definition skip (s : string) : string :=
  String.rev (lskip (String.rev (lskip s))).

(** The limit of the interpreter on the digits of a literal
    ([sys.get_int_max_str_digits()], unless configured otherwise). *)
Definition max_str_digits : nat := 4300.

(** The literal after its sign: it starts with a digit. *)
Definition magnitude (s : string) : option Z :=
  match s with
  | String c _ =>
      if is_digit c then
        '(v, count) ← digits s 0 0;
        if (count <=? max_str_digits)%nat then Some v else None
      else None
  | "" => None
  end.

(** [int(s)] for a text; [None] stands for the [ValueError]. *)
Definition of_str (s : string) : option Z :=
  match skip s with
  | String "-" r => Z.opp <$> magnitude r
  | String "+" r => magnitude r
  | t => magnitude t
  end.

End PyInt.

(** A message box: [QMessageBox.warning] or [QMessageBox.information]
    with its title and its text. *)
Inductive dialog : Type :=
| Warning (title text : string)
| Information (title text : string).

(** The texts of the four input fields. *)
Record form := {
  task_name_input : string;
  command_input : string;
  interval_input : string;
  duration_input : string
}.

(** [not s] for a text. *)
Definition is_empty (s : string) : bool := bool_decide (s = "").

Section Form.

Context {Duration : Type}.
Variable isodate_parse_duration : string -> isodate_result Duration.

(** [TaskSchedulerApp.schedule], lines 199-216: what the slot returns or
    raises, the message boxes it shows and the command lines it hands to
    the operating system. *)
Definition schedule (f : form) (w : world) (tr : trace)
  : outcome unit * list dialog * trace :=
  let task_name := task_name_input f in
  let command_path := command_input f in
  let interval := interval_input f in
  let duration := duration_input f in
  if is_empty task_name || is_empty command_path || is_empty interval
     || is_empty duration then
    (Return (), [Warning "Input Error" "Please fill in all fields."], tr)
  else
    match PyInt.of_str interval with
    | None =>
        (Return (),
         [Warning "Input Error" "Interval must be a valid number."], tr)
    | Some interval =>
        match schedule_task isodate_parse_duration
                task_name command_path interval duration w tr with
        | (Return message, tr') =>
            (Return (), [Information "Task Scheduler" message], tr')
        | (Raise e, tr') => (Raise e, [], tr')
        end
    end.

End Form.

(** [TaskSchedulerApp.center], lines 186-192: the position the window is
    moved to, from the sizes of the screen and of the window. *)
Definition center (screen_width screen_height width height : Z) : Z * Z :=
  ((screen_width - width) / 2, (screen_height - height) / 2).

(** ** Sample forms and listings *)

Module Forms.

(** The form filled in for the task [Backup]. *)
Definition backup : form :=
  {| task_name_input := "Backup"; command_input := Samples.script;
     interval_input := "30"; duration_input := "PT3H" |}.

(** The same with a negative interval. *)
Definition negative : form :=
  {| task_name_input := "Backup"; command_input := Samples.script;
     interval_input := "-5"; duration_input := "PT3H" |}.

(** The same with one space as the interval. *)
Definition blank_interval : form :=
  {| task_name_input := "Backup"; command_input := Samples.script;
     interval_input := " "; duration_input := "PT3H" |}.

(** A query whose output is the line [Repeat: Every] alone. *)
Definition short_listing : world :=
  Samples.os (Exited 0 "Repeat: Every" "") Samples.created Samples.afternoon.

(** One hour, thirty minutes and half a second. *)
Definition ninety_minutes_and_a_half_second : timedelta :=
  of_microseconds 5400500000.

End Forms.

(** ** Proof automation *)

(** Positivity of a power of two. *)
Ltac pow_pos := apply Z.pow_pos_nonneg; lia.

(** The exponent of a result is within the range of binary64. *)
Ltac in_range :=
  symmetry; apply Z.leb_le; unfold PyFloat.emax, PyFloat.prec; lia.

(** Facts on prefixes and occurrences, for [auto]. *)
Create HintDb text discriminated.

(** * Properties *)

(** ** The float of [total_seconds] *)

Section FloatFacts.

(** [digits2_pos] counts the binary digits, as [Pos.size] does. *)
Lemma digits2_pos_size p : digits2_pos p = Pos.size p.
Proof. induction p; simpl; congruence. Qed.

(** A number of [d] binary digits lies between [2^(d-1)] and [2^d]. *)
Lemma digits_bounds p :
  2 ^ (Zpos (digits2_pos p) - 1) <= Zpos p < 2 ^ Zpos (digits2_pos p).
Proof.
  rewrite digits2_pos_size. split.
  - pose proof (Pos.size_le p) as H.
    assert (Hp : (2 ^ Pos.size p <= p~0)%positive) by exact H.
    apply Pos2Z.pos_le_pos in Hp. rewrite Pos2Z.inj_pow in Hp.
    replace (Zpos (Pos.size p)) with (Z.succ (Zpos (Pos.size p) - 1)) in Hp
      by lia.
    rewrite Z.pow_succ_r in Hp by lia. lia.
  - pose proof (Pos.size_gt p) as H.
    apply Pos2Z.pos_lt_pos in H. rewrite Pos2Z.inj_pow in H. exact H.
Qed.

(** A number between [2^(k-1)] and [2^k] has [k] digits. *)
Lemma digits_unique p k :
  2 ^ (k - 1) <= Zpos p < 2 ^ k -> Zpos (digits2_pos p) = k.
Proof.
  intros [Hlo Hhi]. pose proof (digits_bounds p) as [Dlo Dhi].
  set (d := Zpos (digits2_pos p)) in *.
  assert (0 < k).
  { destruct (Z_lt_le_dec 0 k); auto.
    rewrite Z.pow_neg_r in Hlo by lia.
    destruct (Z.eq_dec k 0); [subst; simpl in Hhi; lia|].
    rewrite Z.pow_neg_r in Hhi by lia. lia. }
  assert (d - 1 < k). { apply (Z.pow_lt_mono_r_iff 2); lia. }
  assert (k - 1 < d). { apply (Z.pow_lt_mono_r_iff 2); lia. }
  lia.
Qed.

(** A shift to the left by [s] adds [s] digits. *)
Lemma digits_shift p s :
  0 <= s -> Zdigits2 (Zpos p * 2 ^ s) = Zpos (digits2_pos p) + s.
Proof.
  intros Hs. pose proof (digits_bounds p) as [Dlo Dhi].
  assert (Hpos : 0 < 2 ^ s) by pow_pos.
  destruct (Zpos p * 2 ^ s) as [|q|q] eqn:E; try lia.
  simpl. apply digits_unique. rewrite <- E.
  replace (Zpos (digits2_pos p) + s - 1)
    with ((Zpos (digits2_pos p) - 1) + s) by lia.
  rewrite !Z.pow_add_r by lia. nia.
Qed.

(** Multiplying by [10^6] adds 19 or 20 digits. *)
Lemma digits_scaled p :
  Zpos (digits2_pos p) + 19
  <= Zpos (digits2_pos (p * 1000000))
  <= Zpos (digits2_pos p) + 20.
Proof.
  pose proof (digits_bounds p) as [Dlo Dhi].
  pose proof (digits_bounds (p * 1000000)) as [Elo Ehi].
  rewrite Pos2Z.inj_mul in Elo, Ehi.
  set (d := Zpos (digits2_pos p)) in *.
  set (e := Zpos (digits2_pos (p * 1000000))) in *.
  assert (0 < d) by (unfold d; lia). assert (0 < e) by (unfold e; lia).
  assert (H19 : 2 ^ 19 < 1000000) by reflexivity.
  assert (H20 : 1000000 < 2 ^ 20) by reflexivity.
  assert (A : 2 ^ (d - 1 + 19) < 2 ^ e).
  { rewrite Z.pow_add_r by lia.
    assert (0 < 2 ^ (d - 1)) by pow_pos. nia. }
  assert (B : 2 ^ (e - 1) < 2 ^ (d + 20)).
  { rewrite (Z.pow_add_r 2 d 20) by lia.
    assert (0 < 2 ^ d) by pow_pos. nia. }
  apply Z.pow_lt_mono_r_iff in A; try lia.
  apply Z.pow_lt_mono_r_iff in B; try lia.
Qed.

(** The quotient of a whole number of seconds, before rounding: exact. *)
Lemma div_core_exact p :
  Zpos p < 2 ^ 53 ->
  let s := 73 - Zpos (digits2_pos (p * 1000000)) in
  0 <= s /\
  SFdiv_core_binary PyFloat.prec PyFloat.emax (Zpos (p * 1000000)) 0 1000000 0
  = (Zpos p * 2 ^ s, - s, loc_Exact).
Proof.
  intros Hp s.
  pose proof (digits_scaled p) as [D1 D2].
  pose proof (digits_bounds p) as [Dlo Dhi].
  assert (Hd : Zpos (digits2_pos p) <= 53).
  { destruct (Z_le_gt_dec (Zpos (digits2_pos p)) 53); auto.
    assert (2 ^ 53 <= 2 ^ (Zpos (digits2_pos p) - 1))
      by (apply Z.pow_le_mono_r; lia).
    lia. }
  assert (Hs : 0 <= s) by (unfold s; lia).
  split; [exact Hs|].
  unfold SFdiv_core_binary.
  change (Zdigits2 (Zpos (p * 1000000)))
    with (Zpos (digits2_pos (p * 1000000))).
  change (Zdigits2 1000000) with 20.
  set (d1 := Zpos (digits2_pos (p * 1000000))) in *.
  replace (Z.min (fexp PyFloat.prec PyFloat.emax (d1 + 0 - (20 + 0))) (0 - 0))
    with (- s).
  2:{ unfold fexp, emin, PyFloat.prec, PyFloat.emax, s. lia. }
  replace (0 - 0 - - s) with s by lia.
  assert (Hm : match s with
               | Zpos _ => Z.shiftl (Zpos (p * 1000000)) s
               | 0 => Zpos (p * 1000000)
               | Zneg _ => 0
               end = (Zpos p * 2 ^ s) * 1000000).
  { destruct s as [|q|q] eqn:Es; try lia.
    - rewrite Z.shiftl_mul_pow2 by lia. lia. }
  rewrite Hm.
  destruct (Z.div_eucl (Zpos p * 2 ^ s * 1000000) 1000000) as [q r] eqn:E.
  assert (Hq : q = (Zpos p * 2 ^ s * 1000000) / 1000000)
    by (unfold Z.div; rewrite E; reflexivity).
  assert (Hr : r = (Zpos p * 2 ^ s * 1000000) mod 1000000)
    by (unfold Z.modulo; rewrite E; reflexivity).
  rewrite Z.div_mul in Hq by lia. rewrite Z.mod_mul in Hr by lia.
  subst q r. reflexivity.
Qed.

Lemma fexp_small d : 1 <= d -> fexp PyFloat.prec PyFloat.emax d = d - 53.
Proof. intros. unfold fexp, emin, PyFloat.prec, PyFloat.emax. lia. Qed.

(** Rounding an exact quotient of at most 53 digits changes nothing: the
    result is the number itself, with a mantissa of 53 digits. *)
Lemma round_aux_exact sx p k :
  0 <= k -> k <= 1 ->
  let d := Zpos (digits2_pos p) in
  d <= 53 ->
  binary_round_aux PyFloat.prec PyFloat.emax sx
    (Zpos p * 2 ^ (53 - d + k)) (- (53 - d + k)) loc_Exact
  = S754_finite sx (Z.to_pos (Zpos p * 2 ^ (53 - d))) (d - 53).
Proof.
  intros Hk0 Hk1 d Hd.
  assert (Hd1 : 1 <= d) by (unfold d; lia).
  unfold binary_round_aux, shr_fexp.
  rewrite digits_shift by lia. fold d.
  replace (d + (53 - d + k) + - (53 - d + k)) with d by lia.
  rewrite fexp_small by lia.
  replace (d - 53 - - (53 - d + k)) with k by lia.
  assert (Hpow : 0 < Zpos p * 2 ^ (53 - d)).
  { assert (0 < 2 ^ (53 - d)) by pow_pos. lia. }
  assert (Hshr :
            shr (shr_record_of_loc (Zpos p * 2 ^ (53 - d + k)) loc_Exact)
              (- (53 - d + k)) k
            = ({| shr_m := Zpos p * 2 ^ (53 - d);
                  shr_r := false; shr_s := false |}, d - 53)).
  { assert (k = 0 \/ k = 1) as [-> | ->] by lia.
    - simpl shr. rewrite Z.add_0_r. f_equal. lia.
    - unfold shr, shr_record_of_loc. simpl iter_pos.
      rewrite Z.pow_add_r by lia. change (2 ^ 1) with 2.
      replace (Zpos p * (2 ^ (53 - d) * 2))
        with (2 * (Zpos p * 2 ^ (53 - d))) by lia.
      destruct (Zpos p * 2 ^ (53 - d)) as [|q|q]; try lia.
      cbn. f_equal. lia. }
  rewrite Hshr. cbn [shr_m loc_of_shr_record round_nearest_even].
  rewrite digits_shift by lia. fold d.
  replace (d + (53 - d) + (d - 53)) with d by lia.
  rewrite fexp_small by lia.
  replace (d - 53 - (d - 53)) with 0 by lia.
  cbn [shr shr_record_of_loc shr_m].
  destruct (Zpos p * 2 ^ (53 - d)) as [|q|q] eqn:E; try lia.
  replace (d - 53 <=? PyFloat.emax - PyFloat.prec) with true.
  2:{ in_range. }
  reflexivity.
Qed.

Lemma digits_le_53 p : Zpos p < 2 ^ 53 -> Zpos (digits2_pos p) <= 53.
Proof.
  intros Hp. pose proof (digits_bounds p) as [Dlo Dhi].
  destruct (Z_le_gt_dec (Zpos (digits2_pos p)) 53); auto.
  assert (2 ^ 53 <= 2 ^ (Zpos (digits2_pos p) - 1))
    by (apply Z.pow_le_mono_r; lia).
  lia.
Qed.

(** [n * 10**6 / 10**6] as a float, for [n] below [2^53]: the float of
    value [n]. *)
Lemma SFdiv_scaled_exact sx p :
  Zpos p < 2 ^ 53 ->
  let d := Zpos (digits2_pos p) in
  SFdiv PyFloat.prec PyFloat.emax (S754_finite sx (p * 1000000) 0)
    (S754_finite false 1000000 0)
  = S754_finite sx (Z.to_pos (Zpos p * 2 ^ (53 - d))) (d - 53).
Proof.
  intros Hp d.
  pose proof (div_core_exact p Hp) as [Hs Hcore]. cbv zeta in Hs, Hcore.
  pose proof (digits_scaled p) as [D1 D2]. fold d in D1, D2.
  pose proof (digits_le_53 p Hp) as Hd. fold d in Hd.
  unfold SFdiv. rewrite Hcore.
  set (k := d + 20 - Zpos (digits2_pos (p * 1000000))).
  replace (73 - Zpos (digits2_pos (p * 1000000))) with (53 - d + k)
    by (unfold k; lia).
  rewrite round_aux_exact by (unfold k; fold d; lia).
  destruct sx; reflexivity.
Qed.

(** [int] of a float of an integer value gives the integer back. *)
Lemma to_int_normal sx p :
  let d := Zpos (digits2_pos p) in
  d <= 53 ->
  PyFloat.to_int (S754_finite sx (Z.to_pos (Zpos p * 2 ^ (53 - d))) (d - 53))
  = if sx then Zneg p else Zpos p.
Proof.
  intros d Hd. unfold PyFloat.to_int.
  assert (Hpow : 0 < 2 ^ (53 - d)) by pow_pos.
  rewrite Z2Pos.id by lia.
  assert (Hv : (if 0 <=? d - 53 then Z.shiftl (Zpos p * 2 ^ (53 - d)) (d - 53)
                else Z.shiftr (Zpos p * 2 ^ (53 - d)) (- (d - 53))) = Zpos p).
  { destruct (0 <=? d - 53) eqn:E.
    - apply Z.leb_le in E. replace (d - 53) with 0 by lia.
      replace (53 - d) with 0 by lia. rewrite Z.shiftl_0_r. simpl. lia.
    - rewrite Z.shiftr_div_pow2 by lia.
      replace (- (d - 53)) with (53 - d) by lia.
      apply Z.div_mul. lia. }
  rewrite Hv. destruct sx; reflexivity.
Qed.

(** [int(n * 10**6 / 10**6) = n] for every [n] below [2^53] in absolute
    value: the float division loses nothing on whole seconds. *)
Lemma int_true_divide_exact n :
  - 2 ^ 53 < n < 2 ^ 53 ->
  PyFloat.to_int (PyFloat.int_true_divide (n * 1000000) 1000000) = n.
Proof.
  intros Hn. unfold PyFloat.int_true_divide.
  destruct n as [|p|p].
  - reflexivity.
  - change (PyFloat.of_int (Zpos p * 1000000))
      with (S754_finite false (p * 1000000) 0).
    change (PyFloat.of_int 1000000) with (S754_finite false 1000000 0).
    rewrite SFdiv_scaled_exact by lia.
    rewrite to_int_normal by (apply digits_le_53; lia). reflexivity.
  - change (PyFloat.of_int (Zneg p * 1000000))
      with (S754_finite true (p * 1000000) 0).
    change (PyFloat.of_int 1000000) with (S754_finite false 1000000 0).
    rewrite SFdiv_scaled_exact by lia.
    rewrite to_int_normal by (apply digits_le_53; lia). reflexivity.
Qed.

(** Rounding to nearest moves the mantissa up by one at most. *)
Lemma round_nearest_even_bounds m l :
  m <= round_nearest_even m l <= m + 1.
Proof.
  unfold round_nearest_even.
  destruct l as [|[]]; try lia. destruct (Z.even m); lia.
Qed.

(** One shift to the right halves the mantissa. *)
Lemma shr_1_m mrs :
  0 <= shr_m mrs -> shr_m (shr_1 mrs) = shr_m mrs / 2.
Proof.
  destruct mrs as [m r s]. cbn [shr_m]. intros Hm.
  destruct m as [|p|p]; try lia; [reflexivity|].
  destruct p as [p|p|]; cbn [shr_1 shr_m].
  - rewrite Pos2Z.inj_xI. apply (Z.div_unique _ _ _ 1); lia.
  - rewrite Pos2Z.inj_xO. apply (Z.div_unique _ _ _ 0); lia.
  - reflexivity.
Qed.

Lemma shr_m_of_loc m l : shr_m (shr_record_of_loc m l) = m.
Proof. by destruct l as [|[]]. Qed.

Lemma Zdigits2_pos m k :
  0 < k -> 2 ^ (k - 1) <= m < 2 ^ k -> Zdigits2 m = k.
Proof.
  intros Hk [Hlo Hhi].
  assert (0 < 2 ^ (k - 1)) by pow_pos.
  destruct m as [|p|p]; try lia. cbn [Zdigits2]. by apply digits_unique.
Qed.

(** A mantissa of 53 digits is kept; one of 54 digits is shifted once. *)
Lemma shr_fexp_keep m e l :
  2 ^ 52 <= m < 2 ^ 53 -> -1000 <= e <= 900 ->
  shr_fexp PyFloat.prec PyFloat.emax m e l = (shr_record_of_loc m l, e).
Proof.
  intros Hm He. unfold shr_fexp.
  rewrite (Zdigits2_pos m 53) by (try lia; exact Hm).
  replace (fexp PyFloat.prec PyFloat.emax (53 + e) - e) with 0
    by (unfold fexp, emin, PyFloat.prec, PyFloat.emax; lia).
  reflexivity.
Qed.

Lemma shr_fexp_once m e l :
  2 ^ 53 <= m < 2 ^ 54 -> -1000 <= e <= 900 ->
  shr_fexp PyFloat.prec PyFloat.emax m e l
  = (shr_1 (shr_record_of_loc m l), e + 1).
Proof.
  intros Hm He. unfold shr_fexp.
  rewrite (Zdigits2_pos m 54) by (try lia; exact Hm).
  replace (fexp PyFloat.prec PyFloat.emax (54 + e) - e) with 1
    by (unfold fexp, emin, PyFloat.prec, PyFloat.emax; lia).
  reflexivity.
Qed.

(** The second normalisation of [binary_round_aux]: a mantissa that the
    rounding pushed to [2^53] loses one bit. *)
Lemma round_aux_finish sx m1 e1 :
  2 ^ 52 <= m1 <= 2 ^ 53 -> -1000 <= e1 <= -2 ->
  exists m e,
    (let '(mrs, e'') := shr_fexp PyFloat.prec PyFloat.emax m1 e1 loc_Exact in
     match shr_m mrs with
     | Z0 => S754_zero sx
     | Zpos m => if e'' <=? PyFloat.emax - PyFloat.prec
                 then S754_finite sx m e'' else S754_infinity sx
     | Zneg _ => S754_nan
     end) = S754_finite sx m e
    /\ e < 0 /\ m1 / 2 ^ (- e1) <= Zpos m / 2 ^ (- e).
Proof.
  intros Hm He.
  destruct (Z_lt_le_dec m1 (2 ^ 53)) as [Hlt | Hge].
  - rewrite shr_fexp_keep by lia. cbn [shr_record_of_loc shr_m].
    destruct m1 as [|p|p]; try lia.
    exists p, e1. split; [|lia].
    replace (e1 <=? PyFloat.emax - PyFloat.prec) with true; [done|].
    in_range.
  - assert (m1 = 2 ^ 53) as -> by lia.
    rewrite shr_fexp_once by lia.
    exists (2 ^ 52)%positive, (e1 + 1). split; [|split; [lia|]].
    + cbn [shr_record_of_loc]. change (shr_m (shr_1 _)) with (Zpos (2 ^ 52)).
      cbv iota beta.
      replace (e1 + 1 <=? PyFloat.emax - PyFloat.prec) with true; [done|].
      in_range.
    + replace (- e1) with (1 + - (e1 + 1)) by lia.
      rewrite Z.pow_add_r by lia. change (2 ^ 1) with 2.
      change (2 ^ 53) with (2 * 2 ^ 52). change (Zpos (2 ^ 52)) with (2 ^ 52).
      rewrite Z.div_mul_cancel_l; lia.
Qed.

(** Rounding to 53 bits never goes below the truncation. *)
Lemma round_aux_lower sx q e l :
  2 ^ 52 <= q < 2 ^ 54 -> -1000 <= e <= -3 ->
  exists m e',
    binary_round_aux PyFloat.prec PyFloat.emax sx q e l = S754_finite sx m e'
    /\ e' < 0 /\ q / 2 ^ (- e) <= Zpos m / 2 ^ (- e').
Proof.
  intros Hq He. unfold binary_round_aux.
  destruct (Z_lt_le_dec q (2 ^ 53)) as [Hlt | Hge].
  - rewrite shr_fexp_keep by lia.
    rewrite shr_m_of_loc.
    set (m1 := round_nearest_even q _).
    assert (Hm1 : q <= m1 <= q + 1) by apply round_nearest_even_bounds.
    destruct (round_aux_finish sx m1 e) as (m & e' & -> & He' & Hle); [lia..|].
    exists m, e'. split; [done|]. split; [done|].
    etrans; [|exact Hle]. apply Z.div_le_mono; [|lia].
    pow_pos.
  - rewrite shr_fexp_once by lia.
    set (mrs := shr_1 _).
    assert (Hm0 : shr_m mrs = q / 2).
    { unfold mrs. rewrite shr_1_m; rewrite shr_m_of_loc; [done|lia]. }
    set (m1 := round_nearest_even (shr_m mrs) _).
    assert (Hm1 : q / 2 <= m1 <= q / 2 + 1).
    { rewrite <- Hm0. apply round_nearest_even_bounds. }
    assert (Hh : 2 ^ 52 <= q / 2 < 2 ^ 53).
    { change (2 ^ 53) with (2 * 2 ^ 52) in Hge.
      change (2 ^ 54) with (2 * 2 ^ 53) in Hq.
      split; [apply Z.div_le_lower_bound; lia
             |apply Z.div_lt_upper_bound; lia]. }
    destruct (round_aux_finish sx m1 (e + 1))
      as (m & e' & -> & He' & Hle); [lia..|].
    exists m, e'. split; [done|]. split; [done|].
    etrans; [|exact Hle]. etrans; [|apply Z.div_le_mono; [|apply Hm1]].
    + replace (- e) with (1 + - (e + 1)) by lia.
      rewrite Z.pow_add_r by lia. change (2 ^ 1) with 2.
      rewrite <- Z.div_div by (try lia; pow_pos). lia.
    + pow_pos.
Qed.

(** The quotient before rounding. *)
Lemma div_core_general t :
  Zpos t < 2 ^ 70 ->
  let s := 73 - Zpos (digits2_pos t) in
  let q := (Zpos t * 2 ^ s) / 1000000 in
  (3 <= s <= 72) /\ (2 ^ 52 <= q < 2 ^ 54) /\
  (exists l, SFdiv_core_binary PyFloat.prec PyFloat.emax (Zpos t) 0 1000000 0
             = (q, - s, l)).
Proof.
  intros Ht s q.
  pose proof (digits_bounds t) as [Dlo Dhi].
  set (d := Zpos (digits2_pos t)) in *.
  assert (Hd1 : 1 <= d) by (unfold d; lia).
  assert (Hd : d <= 70).
  { destruct (Z_le_gt_dec d 70); [done|].
    assert (2 ^ 70 <= 2 ^ (d - 1)) by (apply Z.pow_le_mono_r; lia). lia. }
  assert (Hs : 3 <= s <= 72) by (unfold s; lia).
  assert (Hlo : 2 ^ 72 <= Zpos t * 2 ^ s).
  { replace 72 with ((d - 1) + s) by (unfold s; lia).
    rewrite Z.pow_add_r by lia. apply Z.mul_le_mono_nonneg_r; [|done].
    apply Z.pow_nonneg; lia. }
  assert (Hhi : Zpos t * 2 ^ s < 2 ^ 73).
  { replace 73 with (d + s) by (unfold s; lia).
    rewrite Z.pow_add_r by lia. apply Z.mul_lt_mono_pos_r; [|done].
    pow_pos. }
  split; [done|]. split.
  { unfold q. split.
    - apply Z.div_le_lower_bound; [lia|].
      etrans; [|exact Hlo]. by vm_compute.
    - apply Z.div_lt_upper_bound; [lia|].
      eapply Z.lt_le_trans; [exact Hhi|]. by vm_compute. }
  unfold SFdiv_core_binary.
  change (Zdigits2 (Zpos t)) with d. change (Zdigits2 1000000) with 20.
  replace (Z.min (fexp PyFloat.prec PyFloat.emax (d + 0 - (20 + 0))) (0 - 0))
    with (- s)
    by (unfold fexp, emin, PyFloat.prec, PyFloat.emax, s; lia).
  replace (0 - 0 - - s) with s by lia.
  replace (match s with
           | Zpos _ => Z.shiftl (Zpos t) s
           | 0 => Zpos t
           | Zneg _ => 0
           end)
    with (Zpos t * 2 ^ s).
  2:{ destruct s as [|p|p] eqn:Es; try lia. by rewrite Z.shiftl_mul_pow2. }
  destruct (Z.div_eucl (Zpos t * 2 ^ s) 1000000) as [q' r] eqn:E.
  assert (q' = q) as -> by (unfold q, Z.div; by rewrite E).
  eauto.
Qed.

(** [a / 10**6] on an [int] below [2^70] in absolute value is a finite
    float of the sign of [a], not below the exact quotient truncated. *)
Lemma true_divide_finite sx t :
  Zpos t < 2 ^ 70 ->
  exists m e,
    SFdiv PyFloat.prec PyFloat.emax (S754_finite sx t 0)
      (S754_finite false 1000000 0)
    = S754_finite sx m e
    /\ e < 0 /\ Zpos t / 1000000 <= Zpos m / 2 ^ (- e).
Proof.
  intros Ht.
  destruct (div_core_general t Ht) as (Hs & Hq & l & Hcore).
  cbv zeta in Hs, Hq, Hcore.
  unfold SFdiv. rewrite Hcore.
  set (s := 73 - Zpos (digits2_pos t)) in *.
  set (q := Zpos t * 2 ^ s / 1000000) in *.
  destruct (round_aux_lower (xorb sx false) q (- s) l)
    as (m & e & -> & He & Hle); [lia..|].
  rewrite xorb_false_r. exists m, e. split; [done|]. split; [done|].
  etrans; [|exact Hle].
  replace (- - s) with s by lia. unfold q.
  assert (0 < 2 ^ s) by pow_pos.
  rewrite Z.div_div by lia.
  rewrite (Z.mul_comm 1000000), <- Z.div_div by lia.
  rewrite Z.div_mul by lia. lia.
Qed.

(** [int(a / 10**6)] is at least the truncated quotient, in absolute
    value. *)
Lemma to_int_true_divide_lower sx t :
  Zpos t < 2 ^ 70 ->
  exists a,
    PyFloat.to_int (SFdiv PyFloat.prec PyFloat.emax (S754_finite sx t 0)
                      (S754_finite false 1000000 0))
    = (if sx then - a else a)
    /\ Zpos t / 1000000 <= a.
Proof.
  intros Ht. destruct (true_divide_finite sx t Ht) as (m & e & -> & He & Hle).
  unfold PyFloat.to_int.
  replace (0 <=? e) with false by (symmetry; apply Z.leb_gt; lia).
  rewrite Z.shiftr_div_pow2 by lia. eauto.
Qed.

End FloatFacts.

(** ** Facts on text *)

Section TextFacts.

Lemma prefix_nil_l s : String.prefix "" s = true.
Proof. by destruct s. Qed.

Lemma prefix_nil_r p : String.prefix p "" = true -> p = "".
Proof. destruct p; [reflexivity | discriminate]. Qed.

Lemma prefix_cons c p s :
  String.prefix p s = true -> String.prefix (String c p) (String c s) = true.
Proof. intros H. simpl. by destruct (ascii_dec c c). Qed.

Lemma prefix_trans p q s :
  String.prefix p q = true -> String.prefix q s = true ->
  String.prefix p s = true.
Proof.
  revert q s. induction p as [|a p IH]; intros q s Hpq Hqs;
    [apply prefix_nil_l|].
  destruct q as [|b q]; [discriminate|].
  destruct s as [|c s]; [discriminate|].
  simpl in *.
  destruct (ascii_dec a b) as [-> | ]; [|discriminate].
  destruct (ascii_dec b c) as [-> | ]; [|discriminate].
  eauto.
Qed.

Lemma contains_prefix s p :
  String.prefix p s = true -> PyStr.contains s p = true.
Proof. intros H. destruct s; cbn [PyStr.contains]; rewrite H; reflexivity. Qed.

Lemma contains_cons c s p :
  PyStr.contains s p = true -> PyStr.contains (String c s) p = true.
Proof. intros H. cbn [PyStr.contains]. rewrite H. apply orb_true_r. Qed.

Local Hint Resolve prefix_nil_l prefix_cons contains_prefix contains_cons
  : text.

(** A text that contains [p] contains every prefix of [p]. *)
Lemma contains_shorter s p q :
  String.prefix q p = true -> PyStr.contains s p = true ->
  PyStr.contains s q = true.
Proof.
  intros Hq. induction s as [|c s IH]; cbn [PyStr.contains]; intros H.
  - rewrite orb_false_r in *. by rewrite (prefix_trans q p "").
  - apply orb_true_iff in H as [H | H].
    + by rewrite (prefix_trans q p (String c s)).
    + rewrite IH by done. apply orb_true_r.
Qed.

(** The first line of a text is a prefix of the text. *)
Lemma splitlines_head s l ls :
  PyStr.splitlines s = l :: ls -> String.prefix l s = true.
Proof.
  revert l ls. induction s as [|c r IH]; intros l ls; [discriminate|].
  cbn [PyStr.splitlines].
  destruct (PyStr.is_linebreak c).
  - intros [= <- _]. auto with text.
  - destruct (PyStr.splitlines r) as [|l0 ls0] eqn:E.
    + intros [= <- _]. auto with text.
    + intros [= <- _]. eauto with text.
Qed.

(** What starts a line of a text occurs in the text. *)
Lemma splitlines_contains_len n s l p :
  (String.length s <= n)%nat ->
  l ∈ PyStr.splitlines s -> String.prefix p l = true ->
  PyStr.contains s p = true.
Proof.
  revert s l. induction n as [|n IH]; intros s l Hn Hl Hp.
  { destruct s; [|simpl in Hn; lia]. by apply elem_of_nil in Hl. }
  destruct s as [|c r]; [by apply elem_of_nil in Hl|].
  simpl in Hn. cbn [PyStr.splitlines] in Hl.
  destruct (PyStr.is_linebreak c).
  - apply elem_of_cons in Hl as [-> | Hl].
    { apply prefix_nil_r in Hp as ->. auto with text. }
    apply contains_cons.
    destruct (PyStr.is_cr c); [|apply (IH r l); [lia|done..]].
    destruct r as [|c' r']; [apply (IH "" l); [simpl; lia|done..]|].
    destruct (PyStr.is_lf c');
      [|apply (IH (String c' r') l); [simpl in *; lia|done..]].
    apply contains_cons. apply (IH r' l); [simpl in *; lia|done..].
  - destruct (PyStr.splitlines r) as [|l0 ls0] eqn:E.
    + apply list_elem_of_singleton in Hl as ->.
      apply contains_prefix. eapply prefix_trans; [done|]. auto with text.
    + apply elem_of_cons in Hl as [-> | Hl].
      * apply contains_prefix. eapply prefix_trans; [done|].
        apply prefix_cons. eapply splitlines_head; done.
      * apply contains_cons. apply (IH r l); [lia| |done].
        rewrite E. apply elem_of_cons. by right.
Qed.

Lemma splitlines_contains s l p :
  l ∈ PyStr.splitlines s -> PyStr.startswith l p = true ->
  PyStr.contains s p = true.
Proof. apply (splitlines_contains_len (String.length s)). lia. Qed.

End TextFacts.

(** ** The lookup *)

Section Lookup.

Lemma scan_line_unrecognised details line :
  recognised line = false -> scan_line details line = Return details.
Proof.
  unfold recognised, scan_line. intros H.
  repeat (apply orb_false_iff in H as [H ?]).
  by repeat match goal with
            | E : PyStr.startswith _ _ = false |- _ => rewrite E; clear E
            end.
Qed.

Lemma scan_lines_unrecognised details lines :
  Forall (fun line => recognised line = false) lines ->
  scan_lines details lines = Return details.
Proof.
  induction 1 as [|line rest Hl _ IH]; [reflexivity|].
  cbn [scan_lines]. by rewrite scan_line_unrecognised.
Qed.

(** The loop raises nothing but [IndexError]. *)
Lemma scan_line_raises details line e :
  scan_line details line = Raise e -> exists msg, e = IndexError msg.
Proof.
  unfold scan_line, getitem.
  repeat case_match; simpl; repeat case_match; simpl; intros; simplify_eq;
    eauto.
Qed.

Lemma scan_lines_raises lines : forall details e,
  scan_lines details lines = Raise e -> exists msg, e = IndexError msg.
Proof.
  induction lines as [|line rest IH]; intros details e; [discriminate|].
  cbn [scan_lines]. destruct (scan_line details line) as [d|e'] eqn:E; simpl.
  - apply IH.
  - intros [= <-]. by eapply scan_line_raises.
Qed.

(** The lookup, case by case on what the operating system does with
    the query. *)
Lemma lookup_run task_name w tr :
  get_existing_task_details task_name w tr =
  (match run_process w (query_cmd task_name) with
   | NotStarted reason => Raise (OSError reason)
   | Exited rc out _ =>
       if rc =? 0 then
         match scan_lines ∅ (PyStr.splitlines out) with
         | Return details =>
             Return (if bool_decide (details ≠ ∅) then Some details
                     else None)
         | Raise e => Raise e
         end
       else Return None
   end, tr ++ [query_cmd task_name]).
Proof.
  unfold get_existing_task_details, try_except, mbind, M_bind,
    subprocess_run, lift.
  destruct (run_process w (query_cmd task_name)) as [rc out err|reason];
    [|done].
  destruct (rc =? 0); [|done]. cbn [stdout].
  destruct (scan_lines ∅ (PyStr.splitlines out)) as [d|e] eqn:E.
  - by destruct (bool_decide (d ≠ ∅)).
  - apply scan_lines_raises in E as [msg ->]. done.
Qed.

Lemma lookup_trace task_name w tr r tr' :
  get_existing_task_details task_name w tr = (r, tr') ->
  tr' = tr ++ [query_cmd task_name].
Proof. rewrite lookup_run. by intros [= _ <-]. Qed.

Lemma lookup_some_non_empty task_name w tr details tr' :
  get_existing_task_details task_name w tr = (Return (Some details), tr') ->
  details ≠ ∅.
Proof.
  rewrite lookup_run. intros [= H _]. revert H.
  repeat case_match; intros; simplify_eq.
  match goal with
  | E : bool_decide _ = true |- _ => by apply bool_decide_eq_true in E
  end.
Qed.

End Lookup.

(** ** Clock arithmetic and the two-digit fields *)

Section TimeFacts.

Lemma datetime_microseconds_inv us :
  datetime_to_microseconds (datetime_of_microseconds us) = us.
Proof.
  unfold datetime_to_microseconds, datetime_of_microseconds; cbn.
  pose proof (Z.div_mod us 1000000 ltac:(lia)).
  pose proof (Z.div_mod (us / 1000000) 60 ltac:(lia)).
  pose proof (Z.div_mod (us / 1000000 / 60) 60 ltac:(lia)).
  pose proof (Z.div_mod (us / 1000000 / 60 / 60) 24 ltac:(lia)).
  replace (us / 60000000) with (us / 1000000 / 60)
    by (rewrite Z.div_div by lia; reflexivity).
  replace (us / 3600000000) with (us / 1000000 / 60 / 60)
    by (rewrite !Z.div_div by lia; reflexivity).
  replace (us / 86400000000) with (us / 1000000 / 60 / 60 / 24)
    by (rewrite !Z.div_div by lia; reflexivity).
  lia.
Qed.

Lemma timedelta_microseconds_inv us :
  to_microseconds (of_microseconds us) = us.
Proof.
  unfold to_microseconds, of_microseconds; cbn.
  pose proof (Z.div_mod us 1000000 ltac:(lia)).
  pose proof (Z.div_mod (us / 1000000) 86400 ltac:(lia)).
  replace (us / 86400000000) with (us / 1000000 / 86400)
    by (rewrite Z.div_div by lia; reflexivity).
  replace (us mod 86400000000 / 1000000) with ((us / 1000000) mod 86400).
  2:{ change 86400000000 with (1000000 * 86400).
      rewrite Z.rem_mul_r by lia.
      rewrite (Z.mul_comm 1000000), Z.div_add by lia.
      rewrite (Z.div_small (us mod 1000000)) by (apply Z.mod_pos_bound; lia).
      lia. }
  lia.
Qed.

(** The spans in the range of [timedelta] have a normal form. *)
Lemma of_microseconds_wf us :
  -999999999 * 86400000000 <= us < 1000000000 * 86400000000 ->
  timedelta_wf (of_microseconds us).
Proof.
  intros Hus. unfold timedelta_wf, of_microseconds; cbn.
  split; [|split].
  - split.
    + apply Z.div_le_lower_bound; lia.
    + assert (us / 86400000000 < 1000000000)
        by (apply Z.div_lt_upper_bound; lia).
      lia.
  - pose proof (Z.mod_pos_bound us 86400000000 ltac:(lia)).
    split; [apply Z.div_pos; lia | apply Z.div_lt_upper_bound; lia].
  - apply Z.mod_pos_bound. lia.
Qed.

Lemma one_minute : to_microseconds (timedelta_hms 0 1 0) = 60000000.
Proof. reflexivity. Qed.

(** The start time is exactly one minute after the reading of the clock. *)
Lemma start_instant_after w :
  datetime_to_microseconds (start_instant w)
  = datetime_to_microseconds (clock w) + 60000000.
Proof.
  unfold start_instant, datetime_add.
  by rewrite datetime_microseconds_inv, one_minute.
Qed.

Lemma start_instant_fields w :
  0 <= hour (start_instant w) < 24 /\ 0 <= minute (start_instant w) < 60.
Proof.
  unfold start_instant, datetime_add, datetime_of_microseconds;
    cbn [hour minute].
  split; apply Z.mod_pos_bound; lia.
Qed.

Lemma zfill_2_length n :
  0 <= n < 100 -> String.length (PyStr.zfill 2 (pretty n)) = 2%nat.
Proof.
  intros Hn.
  assert (H : forallb (fun k => Nat.eqb (String.length
                (PyStr.zfill 2 (pretty (Z.of_nat k)))) 2) (seq 0 100) = true)
    by (vm_compute; reflexivity).
  rewrite forallb_forall in H.
  specialize (H (Z.to_nat n)). rewrite Z2Nat.id in H by lia.
  apply Nat.eqb_eq, H, in_seq. lia.
Qed.

Lemma length_app (a b : string) :
  String.length (a +:+ b) = (String.length a + String.length b)%nat.
Proof.
  induction a as [|c a IH]; [done|].
  change (String c a +:+ b) with (String c (a +:+ b)).
  cbn [String.length]. by rewrite IH.
Qed.

Lemma strftime_HM_length t :
  0 <= hour t < 24 -> 0 <= minute t < 60 ->
  String.length (strftime_HM t) = 5%nat.
Proof.
  intros Hh Hm. unfold strftime_HM.
  rewrite !length_app, !zfill_2_length by lia. reflexivity.
Qed.

End TimeFacts.

Section FormatFacts.

Lemma wf_whole_seconds_bound d n :
  timedelta_wf d -> to_microseconds d = n * 1000000 ->
  - 2 ^ 53 < n < 2 ^ 53.
Proof.
  unfold timedelta_wf, to_microseconds. intros (Hd & Hs & Hu) H.
  assert (- 86400000000000 <= n <= 86400000000000) by lia.
  change (2 ^ 53) with 9007199254740992. lia.
Qed.

(** On a span of whole seconds the float is exact. *)
Lemma int_total_seconds_whole d n :
  timedelta_wf d -> to_microseconds d = n * 1000000 ->
  PyFloat.to_int (total_seconds d) = n.
Proof.
  intros Hwf H. unfold total_seconds. rewrite H.
  apply int_true_divide_exact. by eapply wf_whole_seconds_bound.
Qed.

Lemma format_whole_seconds d n :
  timedelta_wf d -> to_microseconds d = n * 1000000 ->
  format_duration_for_schtasks d
  = PyStr.format_02 (n / 3600) +:+ ":" +:+ PyStr.format_02 ((n mod 3600) / 60).
Proof.
  intros Hwf H. unfold format_duration_for_schtasks.
  by rewrite (int_total_seconds_whole d n).
Qed.

Lemma hms_split h m s :
  0 <= m < 60 -> 0 <= s < 60 ->
  (h * 3600 + m * 60 + s) / 3600 = h /\
  ((h * 3600 + m * 60 + s) mod 3600) / 60 = m.
Proof.
  intros Hm Hs.
  assert (E1 : (h * 3600 + m * 60 + s) / 3600 = h).
  { symmetry. apply (Z.div_unique _ _ _ (m * 60 + s)); lia. }
  assert (E2 : (h * 3600 + m * 60 + s) mod 3600 = m * 60 + s).
  { symmetry. apply (Z.mod_unique _ _ h); lia. }
  split; [exact E1|]. rewrite E2.
  symmetry. apply (Z.div_unique _ _ _ s); lia.
Qed.

End FormatFacts.

Section NoticeFacts.

(** A text without the character [c] cannot reach across a [c]. *)
Lemma prefix_app_sep a b c p :
  PyStr.has_char c p = false ->
  String.prefix p (a +:+ String c b) = String.prefix p a.
Proof.
  revert p. induction a as [|x a IH]; intros p Hp.
  - change ("" +:+ String c b) with (String c b).
    destruct p as [|y p]; [done|]. cbn in Hp.
    apply orb_false_iff in Hp as [Hy _]. apply Ascii.eqb_neq in Hy.
    cbn. by destruct (ascii_dec y c).
  - change (String x a +:+ String c b) with (String x (a +:+ String c b)).
    destruct p as [|y p]; [done|]. cbn in Hp.
    apply orb_false_iff in Hp as [_ Hp]. cbn.
    destruct (ascii_dec y x); [by apply IH|done].
Qed.

Lemma contains_app_sep a b c p :
  PyStr.has_char c p = false ->
  PyStr.contains (a +:+ String c b) p
  = PyStr.contains a p || PyStr.contains b p.
Proof.
  intros Hp. induction a as [|x a IH].
  - change ("" +:+ String c b) with (String c b).
    cbn [PyStr.contains]. rewrite orb_false_r.
    rewrite <- (prefix_app_sep "" b c p Hp).
    by change ("" +:+ String c b) with (String c b).
  - change (String x a +:+ String c b) with (String x (a +:+ String c b)).
    cbn [PyStr.contains]. rewrite IH.
    rewrite <- orb_assoc. f_equal.
    apply (prefix_app_sep (String x a) b c p Hp).
Qed.

(** The failure message carries the success notice only when the task
    name or the error text of the tool does. *)
Lemma failure_message_notice task_name err :
  PyStr.contains (failure_message task_name err) success_notice
  = PyStr.contains task_name success_notice
    || PyStr.contains err success_notice.
Proof.
  unfold failure_message, PyStr.nl.
  change ("Error scheduling task '" +:+ task_name +:+ "':"
          +:+ String "010" "" +:+ err)
    with ("Error scheduling task "
          +:+ String "'" (task_name
          +:+ String "'" (""
          +:+ String ":" (""
          +:+ String "010" err)))).
  rewrite !contains_app_sep by reflexivity.
  change (PyStr.contains "Error scheduling task " success_notice) with false.
  change (PyStr.contains "" success_notice) with false.
  reflexivity.
Qed.

End NoticeFacts.

Section SignFacts.

Lemma wf_microseconds_bound d :
  timedelta_wf d -> - 2 ^ 70 < to_microseconds d < 2 ^ 70.
Proof.
  unfold timedelta_wf, to_microseconds. intros (Hd & Hs & Hu).
  change (2 ^ 70) with 1180591620717411303424. lia.
Qed.

(** A span of minus one second or below has a negative whole number of
    seconds, whatever the rounding of the float. *)
Lemma int_total_seconds_negative d :
  timedelta_wf d -> to_microseconds d <= -1000000 ->
  PyFloat.to_int (total_seconds d) <= -1.
Proof.
  intros Hwf Hneg. pose proof (wf_microseconds_bound d Hwf) as Hb.
  unfold total_seconds, PyFloat.int_true_divide.
  destruct (to_microseconds d) as [|t|t] eqn:E; try lia.
  change (PyFloat.of_int (Zneg t)) with (S754_finite true t 0).
  change (PyFloat.of_int 1000000) with (S754_finite false 1000000 0).
  destruct (to_int_true_divide_lower true t) as (a & -> & Ha); [lia|].
  assert (1 <= Zpos t / 1000000) by (apply Z.div_le_lower_bound; lia).
  lia.
Qed.

(** The float of [total_seconds] is zero or finite: [int] never meets an
    infinity or a NaN. *)
Lemma total_seconds_finite d :
  timedelta_wf d ->
  total_seconds d = S754_zero false
  \/ exists sx m e, total_seconds d = S754_finite sx m e.
Proof.
  intros Hwf. pose proof (wf_microseconds_bound d Hwf) as Hb.
  unfold total_seconds, PyFloat.int_true_divide.
  destruct (to_microseconds d) as [|t|t]; [by left|right..].
  - destruct (true_divide_finite false t) as (m & e & H & _); [lia|]. eauto.
  - destruct (true_divide_finite true t) as (m & e & H & _); [lia|]. eauto.
Qed.

Lemma format_02_negative n :
  n < 0 -> PyStr.format_02 n = "-" +:+ PyStr.zfill 1 (pretty (Z.abs n)).
Proof.
  intros Hn. unfold PyStr.format_02. by rewrite (proj2 (Z.ltb_lt n 0)).
Qed.

Lemma format_negative d :
  timedelta_wf d -> to_microseconds d <= -1000000 ->
  exists rest, format_duration_for_schtasks d = "-" +:+ rest.
Proof.
  intros Hwf Hneg. pose proof (int_total_seconds_negative d Hwf Hneg) as H.
  unfold format_duration_for_schtasks.
  set (n := PyFloat.to_int (total_seconds d)) in *.
  assert (Hh : n / 3600 < 0) by (apply Z.div_lt_upper_bound; lia).
  rewrite (format_02_negative _ Hh). eauto.
Qed.

End SignFacts.

(** ** The creation path and the whole call *)

Section Properties.

Context {Duration : Type}.
Variable iso : string -> isodate_result Duration.


Lemma parse_raises duration_str e :
  parse_iso_duration iso duration_str = Raise e ->
  exists msg, e = ValueError ("Error parsing duration: " +:+ msg).
Proof.
  unfold parse_iso_duration.
  destruct (iso duration_str); intros; simplify_eq; eauto.
Qed.

(** The creation path, case by case. *)
Lemma create_run task_name command_path interval duration_str w tr :
  create_task iso task_name command_path interval duration_str w tr =
  match parse_iso_duration iso duration_str with
  | Raise e =>
      (match e with ValueError msg => Return msg | _ => Raise e end, tr)
  | Return duration_td =>
      let cmd := create_cmd task_name command_path
                   (strftime_HM (start_instant w)) interval
                   (format_duration_for_schtasks duration_td) in
      (match run_process w cmd with
       | Exited rc out err =>
           if rc =? 0 then Return (success_message task_name out)
           else Return (failure_message task_name err)
       | NotStarted reason => Raise (OSError reason)
       end, tr ++ [cmd])
  end.
Proof.
  unfold create_task, try_except, mbind, M_bind, subprocess_run, lift,
    datetime_now, start_instant.
  destruct (parse_iso_duration iso duration_str) as [td|e] eqn:E.
  - cbv zeta.
    destruct (run_process w _) as [rc out err|reason]; [|done].
    by destruct (rc =? 0).
  - apply parse_raises in E as [msg ->]. done.
Qed.

(** After an absent answer of the lookup the call is the creation path. *)
Lemma schedule_absent task_name command_path interval duration_str w tr tr' :
  get_existing_task_details task_name w tr = (Return None, tr') ->
  schedule_task iso task_name command_path interval duration_str w tr
  = create_task iso task_name command_path interval duration_str w
      (tr ++ [query_cmd task_name]).
Proof.
  intros H. pose proof (lookup_trace _ _ _ _ _ H) as ->.
  unfold schedule_task, mbind, M_bind. by rewrite H.
Qed.

Lemma schedule_present task_name command_path interval duration_str w tr
    details tr' :
  get_existing_task_details task_name w tr = (Return (Some details), tr') ->
  schedule_task iso task_name command_path interval duration_str w tr
  = (Return (already_exists_message details task_name command_path
               interval duration_str), tr ++ [query_cmd task_name]).
Proof.
  intros H. pose proof (lookup_trace _ _ _ _ _ H) as ->.
  pose proof (lookup_some_non_empty _ _ _ _ _ H) as Hne.
  unfold schedule_task, mbind, M_bind. rewrite H.
  by rewrite bool_decide_eq_true_2.
Qed.

(** *** The task is already there *)


(** *** The query fails *)

(** C2 (amended).  A query that exits with any non-zero code makes the
    lookup report the task as absent, whatever the code and the outputs;
    a query that cannot be started (the tool is missing) makes the lookup
    raise the error of the operating system, and the whole call raises it
    too. *)
Theorem lookup_query_failure task_name w :
  (forall rc out err,
      run_process w (query_cmd task_name) = Exited rc out err -> rc <> 0 ->
      get_existing_task_details task_name w []
      = (Return None, [query_cmd task_name]))
  /\ (forall reason,
      run_process w (query_cmd task_name) = NotStarted reason ->
      get_existing_task_details task_name w []
      = (Raise (OSError reason), [query_cmd task_name])
      /\ forall command_path interval duration_str,
           schedule_task iso task_name command_path interval duration_str w []
           = (Raise (OSError reason), [query_cmd task_name])).
Proof.
  split.
  - intros rc out err H Hrc. rewrite lookup_run, H.
    by rewrite (proj2 (Z.eqb_neq rc 0) Hrc).
  - intros reason H.
    assert (Hl : get_existing_task_details task_name w []
                 = (Raise (OSError reason), [query_cmd task_name]))
      by (by rewrite lookup_run, H).
    split; [exact Hl|]. intros command_path interval duration_str.
    unfold schedule_task, mbind, M_bind. by rewrite Hl.
Qed.

(** *** The creation *)

Lemma schedule_creates task_name command_path interval duration_str w
    duration_td :
  result_of (get_existing_task_details task_name) w = Return None ->
  parse_iso_duration iso duration_str = Return duration_td ->
  schedule_task iso task_name command_path interval duration_str w [] =
  let cmd := create_cmd task_name command_path
               (strftime_HM (start_instant w)) interval
               (format_duration_for_schtasks duration_td) in
  (match run_process w cmd with
   | Exited rc out err =>
       if rc =? 0 then Return (success_message task_name out)
       else Return (failure_message task_name err)
   | NotStarted reason => Raise (OSError reason)
   end, [query_cmd task_name; cmd]).
Proof.
  unfold result_of. intros H Hp.
  destruct (get_existing_task_details task_name w []) as [r tr'] eqn:E.
  cbn in H. subst r.
  rewrite (schedule_absent _ _ _ _ _ _ _ E), create_run, Hp. reflexivity.
Qed.


Lemma schedule_parse_fails task_name command_path interval duration_str w e :
  result_of (get_existing_task_details task_name) w = Return None ->
  parse_iso_duration iso duration_str = Raise e ->
  exists msg,
    e = ValueError ("Error parsing duration: " +:+ msg) /\
    schedule_task iso task_name command_path interval duration_str w []
    = (Return ("Error parsing duration: " +:+ msg), [query_cmd task_name]).
Proof.
  unfold result_of. intros H Hp.
  destruct (get_existing_task_details task_name w []) as [r tr'] eqn:E.
  cbn in H. subst r.
  destruct (parse_raises _ _ Hp) as [msg ->]. exists msg. split; [done|].
  by rewrite (schedule_absent _ _ _ _ _ _ _ E), create_run, Hp.
Qed.





(** C8.  With the task absent and a duration that fails to parse, the
    call returns the text of the parse error as its message, a plain
    string that starts with [Error parsing duration: ], and hands the
    operating system the query only. *)
Theorem parse_failure_reported task_name command_path interval duration_str
    w e :
  result_of (get_existing_task_details task_name) w = Return None ->
  parse_iso_duration iso duration_str = Raise e ->
  exists msg,
    e = ValueError ("Error parsing duration: " +:+ msg)
    /\ result_of
         (schedule_task iso task_name command_path interval duration_str) w
       = Return (ValueError_str ("Error parsing duration: " +:+ msg))
    /\ commands_of
         (schedule_task iso task_name command_path interval duration_str) w
       = [query_cmd task_name]
    /\ creations
         (commands_of
            (schedule_task iso task_name command_path interval duration_str) w)
       = [].
Proof.
  intros H Hp. unfold result_of, commands_of.
  destruct (schedule_parse_fails task_name command_path interval _ _ _ H Hp)
    as (msg & -> & ->).
  by exists msg.
Qed.

Lemma unrecognised_lines out :
  PyStr.contains out "Task Name" = false ->
  PyStr.contains out "Task To Run" = false ->
  PyStr.contains out "Repeat: Every" = false ->
  PyStr.contains out "Duration" = false ->
  Forall (fun line => recognised line = false) (PyStr.splitlines out).
Proof.
  intros H1 H2 H3 H4. apply Forall_forall. intros line Hin.
  unfold recognised.
  repeat (apply orb_false_iff; split);
    apply not_true_is_false; intros Hs;
    pose proof (splitlines_contains _ _ _ Hin Hs) as Hc.
  - by rewrite (contains_shorter out "Task Name:" "Task Name") in H1.
  - by rewrite (contains_shorter out "Task To Run:" "Task To Run") in H2.
  - by rewrite Hc in H3.
  - by rewrite (contains_shorter out "Duration:" "Duration") in H4.
Qed.



End Properties.

(** * The properties on the sample environments *)

(** The examples of the formatting: three hours, ninety minutes, thirty
    hours. *)
Example format_three_hours :
  format_duration_for_schtasks (timedelta_hms 3 0 0) = "03:00".
Proof. by vm_compute. Qed.

Example format_ninety_minutes :
  format_duration_for_schtasks (timedelta_hms 0 90 0) = "01:30".
Proof. by vm_compute. Qed.

Example format_thirty_hours :
  format_duration_for_schtasks (timedelta_hms 30 0 0) = "30:00".
Proof. by vm_compute. Qed.

(** The whole call for the task [Backup], absent so far: the query, then
    the creation with [/ri 30] and [/du 03:00], one minute after 14:07. *)
Example backup_created :
  schedule_task Samples.isodate "Backup" Samples.script 30 "PT3H"
    Samples.fresh []
  = (Return ("Task 'Backup' scheduled successfully." +:+ PyStr.nl +:+
             "SUCCESS: The scheduled task has successfully been created."),
     [["schtasks"; "/query"; "/tn"; "Backup"; "/fo"; "LIST"; "/v"];
      ["schtasks"; "/create"; "/tn"; "Backup"; "/sc"; "DAILY";
       "/tr"; Samples.script; "/st"; "14:08"; "/ri"; "30";
       "/du"; "03:00"; "/f"]]).
Proof. by vm_compute. Qed.

(** An output with the line [Repeat: Every] and nothing after it: the
    index 2 of line 44 is out of range and the lookup raises. *)
Example lookup_short_repeat_line :
  result_of (get_existing_task_details "Backup")
    (Samples.os (Exited 0 "Repeat: Every" "") Samples.created Samples.afternoon)
  = Raise (IndexError "list index out of range").
Proof. by vm_compute. Qed.

Lemma lookup_fresh :
  result_of (get_existing_task_details "Backup") Samples.fresh = Return None.
Proof. by vm_compute. Qed.

Lemma lookup_refusing :
  result_of (get_existing_task_details "Backup") Samples.refusing = Return None.
Proof. by vm_compute. Qed.

Lemma lookup_listed :
  result_of (get_existing_task_details "Backup") Samples.listed
  = Return (Some Samples.listed_details).
Proof. by vm_compute. Qed.

Lemma lookup_partly_listed :
  result_of (get_existing_task_details "Backup") Samples.partly_listed
  = Return (Some Samples.partly_listed_details).
Proof. by vm_compute. Qed.



(** A witness of C2, on a query that exits with code 1 and on a missing
    tool. *)
Lemma lookup_query_failure_witness :
  get_existing_task_details "Backup" Samples.fresh []
  = (Return None, [query_cmd "Backup"])
  /\ get_existing_task_details "Backup" Samples.no_tool []
     = (Raise (OSError "[WinError 2] The system cannot find the file specified"),
        [query_cmd "Backup"]).
Proof.
  split.
  - apply (proj1 (lookup_query_failure Samples.isodate "Backup" Samples.fresh)
             1 "" "ERROR: The system cannot find the file specified.");
      [reflexivity | lia].
  - apply (proj2 (lookup_query_failure Samples.isodate "Backup" Samples.no_tool)).
    reflexivity.
Defined.

(** Counterexample to C2 as stated, with the tool missing: the lookup
    does not report the task as absent, it raises, and so does the whole
    call. *)
Lemma lookup_missing_tool_counterexample :
  result_of (get_existing_task_details "Backup") Samples.no_tool
  = Raise (OSError "[WinError 2] The system cannot find the file specified")
  /\ result_of (get_existing_task_details "Backup") Samples.no_tool
     <> Return None
  /\ result_of (schedule_task Samples.isodate "Backup" Samples.script
                  30 "PT3H") Samples.no_tool
     = Raise (OSError "[WinError 2] The system cannot find the file specified").
Proof. split; [by vm_compute|]. split; by vm_compute. Qed.

Lemma parse_three_hours :
  parse_iso_duration Samples.isodate "PT3H" = Return (timedelta_hms 3 0 0).
Proof. reflexivity. Qed.


Example start_time_after_midnight :
  strftime_HM (start_instant Samples.fresh_at_night) = "00:00".
Proof. by vm_compute. Qed.





(** The other case of C7: a creation that succeeds. *)
Example create_exit_zero :
  result_of (schedule_task Samples.isodate "Backup" Samples.script
               30 "PT3H") Samples.fresh
  = Return ("Task 'Backup' scheduled successfully." +:+ PyStr.nl +:+
            "SUCCESS: The scheduled task has successfully been created.").
Proof. by vm_compute. Qed.

(** A witness of C8, on the text [3 hours]. *)
Lemma parse_failure_reported_witness :
  exists msg,
    ValueError "Error parsing duration: Unable to parse duration string '3 hours'"
    = ValueError ("Error parsing duration: " +:+ msg)
    /\ result_of (schedule_task Samples.isodate "Backup" Samples.script
                    30 "3 hours") Samples.fresh
       = Return (ValueError_str ("Error parsing duration: " +:+ msg))
    /\ commands_of (schedule_task Samples.isodate "Backup" Samples.script
                      30 "3 hours") Samples.fresh
       = [query_cmd "Backup"]
    /\ creations
         (commands_of (schedule_task Samples.isodate "Backup"
                         Samples.script 30 "3 hours") Samples.fresh)
       = [].
Proof.
  apply (parse_failure_reported Samples.isodate "Backup" Samples.script
           30 "3 hours" Samples.fresh).
  - exact lookup_fresh.
  - reflexivity.
Defined.




(** * Further properties *)

(** ** The pieces of a split *)

Section SplitFacts.

Lemma split_zero sep s : PyStr.split sep (Some 0%nat) s = [s].
Proof.
  induction s as [|c r IH]; [done|].
  cbn [PyStr.split]. rewrite bool_decide_eq_true_2 by done.
  rewrite andb_false_r. by rewrite IH.
Qed.

Lemma split_not_nil sep ms s : PyStr.split sep ms s <> [].
Proof.
  destruct s as [|c r]; [done|]. cbn [PyStr.split].
  destruct (_ && _); [done|]. by destruct (PyStr.split sep ms r).
Qed.

(** The number of pieces: one more than the separators, up to the limit. *)
Lemma split_length sep ms s :
  length (PyStr.split sep ms s)
  = S (match ms with
       | Some n => Nat.min n (count_char sep s)
       | None => count_char sep s
       end).
Proof.
  revert ms. induction s as [|c r IH]; intros ms.
  { destruct ms as [n|]; [by rewrite Nat.min_0_r|done]. }
  cbn [PyStr.split count_char].
  destruct (Ascii.eqb c sep) eqn:Ec; cbn [andb].
  - destruct ms as [[|n]|]; cbn [negb].
    + rewrite bool_decide_eq_true_2 by done. cbn [negb].
      pose proof (split_not_nil sep (Some 0%nat) r).
      specialize (IH (Some 0%nat)).
      destruct (PyStr.split sep (Some 0%nat) r); [done|]. cbn in *. lia.
    + rewrite bool_decide_eq_false_2 by done. cbn [negb length fmap option_fmap option_map].
      rewrite IH. cbn. lia.
    + rewrite bool_decide_eq_false_2 by done. cbn [negb length fmap option_fmap option_map].
      rewrite IH. cbn. lia.
  - pose proof (split_not_nil sep ms r). specialize (IH ms).
    destruct (PyStr.split sep ms r); [done|]. cbn in *. rewrite IH.
    by destruct ms.
Qed.

Lemma count_char_prefix c p s :
  String.prefix p s = true -> (count_char c p <= count_char c s)%nat.
Proof.
  revert s. induction p as [|a p IH]; intros s H; [cbn; lia|].
  destruct s as [|b s]; [done|]. cbn in H.
  destruct (ascii_dec a b) as [->|]; [|done].
  cbn [count_char]. specialize (IH s H). lia.
Qed.

(** [l[i]] succeeds within the length. *)
Lemma getitem_lt {A} (l : list A) i :
  (i < length l)%nat -> exists x, getitem l i = Return x.
Proof.
  intros H. unfold getitem.
  destruct (lookup_lt_is_Some_2 l i H) as [x ->]. eauto.
Qed.

Lemma getitem_ge {A} (l : list A) i :
  (length l <= i)%nat ->
  getitem l i = Raise (IndexError "list index out of range").
Proof. intros H. unfold getitem. by rewrite lookup_ge_None_2. Qed.

End SplitFacts.

(** ** The lookup, line by line *)

Section LookupLines.

Lemma prefix_head a p c r :
  String.prefix (String a p) (String c r) = true -> a = c.
Proof. cbn. destruct (ascii_dec a c); [done | discriminate]. Qed.

Lemma repeat_is_no_task line :
  PyStr.startswith line "Repeat: Every" = true ->
  PyStr.startswith line "Task Name:" = false
  /\ PyStr.startswith line "Task To Run:" = false.
Proof.
  unfold PyStr.startswith. intros H.
  destruct line as [|c r]; [discriminate|].
  apply prefix_head in H as <-.
  split; apply not_true_is_false; intros H; by apply prefix_head in H.
Qed.

(** A line that starts with one of the keys that end in a colon has an
    item of index 1 after [split(":", 1)]. *)
Lemma colon_item line p :
  PyStr.startswith line p = true -> (1 <= count_char ":" p)%nat ->
  exists v, getitem (PyStr.split ":" (Some 1%nat) line) 1 = Return v.
Proof.
  intros Hp Hc. apply getitem_lt. rewrite split_length.
  pose proof (count_char_prefix ":" p line Hp). lia.
Qed.

(** What one line does: it raises exactly when it is a short repeat line. *)
Lemma scan_line_short details line :
  short_repeat_line line = true ->
  scan_line details line = Raise (IndexError "list index out of range").
Proof.
  unfold short_repeat_line. intros [Hs Hc%Nat.ltb_lt]%andb_true_iff.
  destruct (repeat_is_no_task line Hs) as [H1 H2].
  unfold scan_line. rewrite H1, H2, Hs.
  rewrite getitem_ge; [done|]. rewrite split_length. lia.
Qed.

Lemma scan_line_returns details line :
  short_repeat_line line = false ->
  exists details', scan_line details line = Return details'.
Proof.
  unfold short_repeat_line, scan_line. intros Hn.
  destruct (PyStr.startswith line "Task Name:") eqn:H1.
  { destruct (colon_item line _ H1) as [v ->]; [cbn; lia|]. cbn. eauto. }
  destruct (PyStr.startswith line "Task To Run:") eqn:H2.
  { destruct (colon_item line _ H2) as [v ->]; [cbn; lia|]. cbn. eauto. }
  destruct (PyStr.startswith line "Repeat: Every") eqn:H3.
  { cbn [andb] in Hn. apply Nat.ltb_ge in Hn.
    destruct (getitem_lt (PyStr.split " " (Some 2%nat) line) 2) as [v ->].
    { rewrite split_length. lia. }
    cbn.
    destruct (getitem_lt (PyStr.split " " None (PyStr.strip v)) 0) as [i ->].
    { rewrite split_length. lia. }
    cbn. eauto. }
  destruct (PyStr.startswith line "Duration:") eqn:H4.
  { destruct (colon_item line _ H4) as [v ->]; [cbn; lia|]. cbn. eauto. }
  eauto.
Qed.

Lemma scan_lines_short lines : forall details,
  Exists (fun line => short_repeat_line line = true) lines ->
  scan_lines details lines = Raise (IndexError "list index out of range").
Proof.
  induction lines as [|line rest IH]; intros details H.
  { by apply Exists_nil in H. }
  cbn [scan_lines].
  destruct (short_repeat_line line) eqn:Hs.
  - by rewrite scan_line_short.
  - destruct (scan_line_returns details line Hs) as [d' ->]. cbn.
    apply IH. apply Exists_cons in H as [H|H]; [congruence|done].
Qed.

Lemma scan_lines_returns lines : forall details,
  Forall (fun line => short_repeat_line line = false) lines ->
  exists details', scan_lines details lines = Return details'.
Proof.
  induction lines as [|line rest IH]; intros details H.
  { cbn. eauto. }
  apply Forall_cons in H as [Hl Hr]. cbn [scan_lines].
  destruct (scan_line_returns details line Hl) as [d' ->]. cbn. eauto.
Qed.

(** A line either grows the dictionary by one of the four keys or leaves
    it as it is. *)
Lemma scan_line_insert details line details' :
  scan_line details line = Return details' ->
  if recognised line
  then exists key value, key ∈ details_keys /\ details' = <[key := value]> details
  else details' = details.
Proof.
  unfold scan_line, recognised, details_keys.
  destruct (PyStr.startswith line "Task Name:"); cbn [orb].
  { destruct (getitem _ 1); cbn; intros [= <-].
    eexists _, _. split; [|done]. set_solver. }
  destruct (PyStr.startswith line "Task To Run:"); cbn [orb].
  { destruct (getitem _ 1); cbn; intros [= <-].
    eexists _, _. split; [|done]. set_solver. }
  destruct (PyStr.startswith line "Repeat: Every"); cbn [orb].
  { destruct (getitem _ 2) as [v|]; cbn; [|done].
    destruct (getitem _ 0); cbn; intros [= <-].
    eexists _, _. split; [|done]. set_solver. }
  destruct (PyStr.startswith line "Duration:"); cbn [orb].
  { destruct (getitem _ 1); cbn; intros [= <-].
    eexists _, _. split; [|done]. set_solver. }
  by intros [= <-].
Qed.

Lemma scan_lines_keys lines : forall details details',
  scan_lines details lines = Return details' ->
  (forall key, is_Some (details' !! key) ->
               is_Some (details !! key) \/ key ∈ details_keys)
  /\ (details <> ∅ -> details' <> ∅)
  /\ (Exists (fun line => recognised line = true) lines -> details' <> ∅)
  /\ (Forall (fun line => recognised line = false) lines -> details' = details).
Proof.
  induction lines as [|line rest IH]; intros details details'.
  { cbn. unfold mret, outcome_ret. intros [= <-]. repeat split; eauto.
    intros H. by apply Exists_nil in H. }
  cbn [scan_lines].
  destruct (scan_line details line) as [d1|] eqn:E1; cbn; [|done].
  intros H. destruct (IH _ _ H) as (Hk & Hne & Hex & Hall).
  pose proof (scan_line_insert _ _ _ E1) as Hl.
  destruct (recognised line) eqn:Hr.
  - destruct Hl as (k & v & Hkin & ->).
    assert (Hd1 : <[k:=v]> details <> ∅) by apply insert_non_empty.
    repeat split; eauto.
    + intros key Hs. destruct (Hk key Hs) as [Hs'|]; [|by right].
      destruct (decide (k = key)) as [<-|Hne']; [by right|].
      left. by rewrite lookup_insert_ne in Hs'.
    + intros Hf. apply Forall_cons in Hf as [Hf _]. congruence.
  - subst d1. repeat split; eauto.
    + intros Hx. apply Exists_cons in Hx as [Hx|Hx]; [congruence|eauto].
    + intros Hf. apply Forall_cons in Hf as [_ Hf]. eauto.
Qed.

End LookupLines.

Section LookupFacts.

Lemma scan_lines_app l1 l2 details :
  scan_lines details (l1 ++ l2)
  = scan_lines details l1 ≫= (fun d => scan_lines d l2).
Proof.
  revert details. induction l1 as [|line rest IH]; intros details; [done|].
  cbn [app scan_lines]. destruct (scan_line details line); cbn; [apply IH|done].
Qed.

(** The piece before the first separator, and what is left. *)
Lemma split_app_sep sep n a b :
  PyStr.has_char sep a = false ->
  PyStr.split sep (Some (S n)) (a +:+ String sep b)
  = a :: PyStr.split sep (Some n) b.
Proof.
  induction a as [|c a IH]; intros Ha.
  - change ("" +:+ String sep b) with (String sep b). cbn [PyStr.split].
    rewrite Ascii.eqb_refl, bool_decide_eq_false_2 by done. done.
  - change (String c a +:+ String sep b) with (String c (a +:+ String sep b)).
    cbn [PyStr.has_char] in Ha. apply orb_false_iff in Ha as [Hc Ha].
    cbn [PyStr.split]. rewrite Hc. cbn [andb]. by rewrite IH.
Qed.

(** A line that starts with one of the three keys records what follows
    the first colon, stripped. *)
Lemma scan_line_colon details prefix key rest :
  (prefix, key) ∈ colon_keys ->
  scan_line details (prefix +:+ rest)
  = Return (<[key := PyStr.strip rest]> details).
Proof.
  unfold colon_keys. rewrite !elem_of_cons, elem_of_nil.
  intros [[= -> ->]|[[= -> ->]|[[= -> ->]|[]]]]; unfold scan_line.
  - assert (H1 : PyStr.startswith ("Task Name:" +:+ rest) "Task Name:" = true)
      by (unfold PyStr.startswith; destruct rest; reflexivity).
    rewrite H1.
    change ("Task Name:" +:+ rest) with ("Task Name" +:+ String ":" rest).
    rewrite split_app_sep by reflexivity. by rewrite split_zero.
  - assert (H1 : PyStr.startswith ("Task To Run:" +:+ rest) "Task Name:"
                 = false) by reflexivity.
    assert (H2 : PyStr.startswith ("Task To Run:" +:+ rest) "Task To Run:"
                 = true)
      by (unfold PyStr.startswith; destruct rest; reflexivity).
    rewrite H1, H2.
    change ("Task To Run:" +:+ rest) with ("Task To Run" +:+ String ":" rest).
    rewrite split_app_sep by reflexivity. by rewrite split_zero.
  - assert (H1 : PyStr.startswith ("Duration:" +:+ rest) "Task Name:" = false)
      by reflexivity.
    assert (H2 : PyStr.startswith ("Duration:" +:+ rest) "Task To Run:"
                 = false) by reflexivity.
    assert (H3 : PyStr.startswith ("Duration:" +:+ rest) "Repeat: Every"
                 = false) by reflexivity.
    assert (H4 : PyStr.startswith ("Duration:" +:+ rest) "Duration:" = true)
      by (unfold PyStr.startswith; destruct rest; reflexivity).
    rewrite H1, H2, H3, H4.
    change ("Duration:" +:+ rest) with ("Duration" +:+ String ":" rest).
    rewrite split_app_sep by reflexivity. by rewrite split_zero.
Qed.

(** A line that does not start with a key leaves what is recorded under
    it. *)
Lemma scan_line_keeps details line details' prefix key :
  (prefix, key) ∈ colon_keys ->
  scan_line details line = Return details' ->
  PyStr.startswith line prefix = false ->
  details' !! key = details !! key.
Proof.
  unfold colon_keys. rewrite !elem_of_cons, elem_of_nil.
  intros [[= -> ->]|[[= -> ->]|[[= -> ->]|[]]]];
    unfold scan_line, mret, outcome_ret; intros H H2; rewrite H2 in H;
    repeat match type of H with
      | context [if ?b then _ else _] => destruct b
      | context [getitem ?l ?i] => destruct (getitem l i); cbn in H
      end;
    simplify_eq; by rewrite ?lookup_insert_ne.
Qed.

Lemma scan_lines_keep lines prefix key : forall details details',
  (prefix, key) ∈ colon_keys ->
  scan_lines details lines = Return details' ->
  Forall (fun line => PyStr.startswith line prefix = false) lines ->
  details' !! key = details !! key.
Proof.
  induction lines as [|line rest IH]; intros details details' Hk H Hf.
  { cbn in H. unfold mret, outcome_ret in H. by simplify_eq. }
  apply Forall_cons in Hf as [Hl Hr]. cbn [scan_lines] in H.
  destruct (scan_line details line) as [d1|] eqn:E; cbn in H; [|done].
  rewrite (IH _ _ Hk H Hr). by eapply scan_line_keeps.
Qed.

(** The lookup after a query that exits zero: the loop decides. *)
Lemma lookup_exit_zero task_name w out err :
  run_process w (query_cmd task_name) = Exited 0 out err ->
  result_of (get_existing_task_details task_name) w
  = match scan_lines ∅ (PyStr.splitlines out) with
    | Return details =>
        Return (if bool_decide (details ≠ ∅) then Some details else None)
    | Raise e => Raise e
    end.
Proof. intros H. unfold result_of. by rewrite lookup_run, H. Qed.

End LookupFacts.

Section LookupProperties.

Context {Duration : Type}.
Variable iso : string -> isodate_result Duration.

(** X1.  After a query that exits zero, the lookup raises [IndexError]
    exactly when some line of the output starts with [Repeat: Every] and
    holds fewer than two spaces; the whole call then raises it too, after
    the query and without any creation command. *)
Theorem lookup_index_error_iff task_name w out err :
  run_process w (query_cmd task_name) = Exited 0 out err ->
  (result_of (get_existing_task_details task_name) w
   = Raise (IndexError "list index out of range")
   <-> exists line,
         line ∈ PyStr.splitlines out
         /\ PyStr.startswith line "Repeat: Every" = true
         /\ (count_char " " line < 2)%nat)
  /\ (forall e,
        result_of (get_existing_task_details task_name) w = Raise e ->
        e = IndexError "list index out of range"
        /\ forall command_path interval duration_str,
             schedule_task iso task_name command_path interval duration_str
               w []
             = (Raise e, [query_cmd task_name])).
Proof.
  intros Hrun. pose proof (lookup_exit_zero _ _ _ _ Hrun) as Hl.
  assert (Hiff : Exists (fun line => short_repeat_line line = true)
                   (PyStr.splitlines out)
                 <-> exists line,
                       line ∈ PyStr.splitlines out
                       /\ PyStr.startswith line "Repeat: Every" = true
                       /\ (count_char " " line < 2)%nat).
  { rewrite Exists_exists. unfold short_repeat_line.
    split; intros (line & Hin & H); exists line; (split; [done|]).
    - apply andb_true_iff in H as [H1 H2%Nat.ltb_lt]. done.
    - destruct H as [H1 H2%Nat.ltb_lt]. by rewrite H1, H2. }
  destruct (decide (Exists (fun line => short_repeat_line line = true)
                      (PyStr.splitlines out))) as [Hex|Hnex].
  - rewrite (scan_lines_short _ _ Hex) in Hl. split.
    + split; [intros _; by apply Hiff | done].
    + intros e He. rewrite Hl in He. simplify_eq. split; [done|].
      intros command_path interval duration_str.
      assert (Hg : get_existing_task_details task_name w []
                   = (Raise (IndexError "list index out of range"),
                      [query_cmd task_name])).
      { rewrite lookup_run, Hrun. cbn [Z.eqb].
        by rewrite (scan_lines_short _ _ Hex). }
      unfold schedule_task, mbind, M_bind. by rewrite Hg.
  - assert (Hall : Forall (fun line => short_repeat_line line = false)
                     (PyStr.splitlines out)).
    { apply Forall_forall. intros line Hin. apply not_true_is_false.
      intros Hs. apply Hnex, Exists_exists. eauto. }
    destruct (scan_lines_returns _ ∅ Hall) as [d Hd]. rewrite Hd in Hl.
    split.
    + split; [by rewrite Hl | intros H; by apply Hiff in H].
    + intros e He. by rewrite Hl in He.
Qed.

(** X2.  After a query that exits zero with no such short line, the
    lookup reports the task as present exactly when some line of the
    output starts with one of the four prefixes [Task Name:],
    [Task To Run:], [Repeat: Every] and [Duration:]; otherwise it reports
    it as absent. *)
Theorem lookup_present_iff task_name w out err :
  run_process w (query_cmd task_name) = Exited 0 out err ->
  Forall (fun line => short_repeat_line line = false) (PyStr.splitlines out) ->
  ((exists details,
       result_of (get_existing_task_details task_name) w
       = Return (Some details))
   <-> exists line, line ∈ PyStr.splitlines out /\ recognised line = true)
  /\ (result_of (get_existing_task_details task_name) w = Return None
      <-> forall line, line ∈ PyStr.splitlines out -> recognised line = false).
Proof.
  intros Hrun Hall. pose proof (lookup_exit_zero _ _ _ _ Hrun) as Hl.
  destruct (scan_lines_returns _ ∅ Hall) as [d Hd]. rewrite Hd in Hl.
  destruct (scan_lines_keys _ _ _ Hd) as (_ & _ & Hex & Hnone).
  destruct (decide (Exists (fun line => recognised line = true)
                      (PyStr.splitlines out))) as [He|Hne].
  - specialize (Hex He). rewrite bool_decide_eq_true_2 in Hl by done.
    apply Exists_exists in He. split.
    + split; [done | eauto].
    + rewrite Hl. split; [done|]. intros Hf.
      destruct He as (line & Hin & Hr). rewrite (Hf line Hin) in Hr. done.
  - assert (Hf : Forall (fun line => recognised line = false)
                   (PyStr.splitlines out)).
    { apply Forall_forall. intros line Hin. apply not_true_is_false.
      intros Hs. apply Hne, Exists_exists. eauto. }
    rewrite (Hnone Hf) in Hl. rewrite bool_decide_eq_false_2 in Hl by auto.
    split.
    + rewrite Hl. split; [by intros [? ?] |].
      intros He. by apply Exists_exists in He.
    + split; [intros _; by apply Forall_forall | done].
Qed.

(** X3.  A snapshot the lookup returns is never empty and holds no key
    other than [Task Name], [Command Path], [Interval] and [Duration]. *)
Theorem lookup_snapshot_keys task_name w details :
  result_of (get_existing_task_details task_name) w = Return (Some details) ->
  details <> ∅
  /\ forall key, is_Some (details !! key) -> key ∈ details_keys.
Proof.
  unfold result_of. rewrite lookup_run. cbn [fst].
  destruct (run_process w (query_cmd task_name)) as [rc out err|]; [|done].
  destruct (rc =? 0); [|done].
  destruct (scan_lines ∅ (PyStr.splitlines out)) as [d|] eqn:Hd; [|done].
  destruct (bool_decide (d ≠ ∅)) eqn:Hb; [|done]. intros [= <-].
  apply bool_decide_eq_true in Hb. split; [done|].
  intros key Hs. destruct (scan_lines_keys _ _ _ Hd) as (Hk & _).
  destruct (Hk key Hs) as [H|H]; [|done].
  rewrite lookup_empty in H. by destruct H.
Qed.

(** X4.  What the snapshot records under [Task Name], [Command Path]
    and [Duration] is what follows the first colon of the last line that
    starts with [Task Name:], [Task To Run:] and [Duration:], without
    the blanks around it; later colons, as in [C:\...] or [02:00],
    stay. *)
Theorem lookup_colon_key task_name w out err prefix key before rest after
    details :
  run_process w (query_cmd task_name) = Exited 0 out err ->
  (prefix, key) ∈ colon_keys ->
  PyStr.splitlines out = before ++ (prefix +:+ rest) :: after ->
  Forall (fun line => PyStr.startswith line prefix = false) after ->
  result_of (get_existing_task_details task_name) w = Return (Some details) ->
  details !! key = Some (PyStr.strip rest).
Proof.
  intros Hrun Hk Hlines Hafter Hres.
  rewrite (lookup_exit_zero _ _ _ _ Hrun), Hlines in Hres.
  rewrite scan_lines_app in Hres.
  destruct (scan_lines ∅ before) as [d0|]; cbn in Hres; [|done].
  cbn [scan_lines] in Hres. rewrite (scan_line_colon _ _ key) in Hres by done.
  cbn in Hres.
  destruct (scan_lines _ after) as [d1|] eqn:Hd1; [|done].
  destruct (bool_decide (d1 ≠ ∅)); simplify_eq.
  rewrite (scan_lines_keep _ _ _ _ _ Hk Hd1 Hafter).
  apply lookup_insert_eq.
Qed.

End LookupProperties.

(** ** The whole call, whatever the lookup says *)

Section CallProperties.

Context {Duration : Type}.
Variable iso : string -> isodate_result Duration.

(** The three ways of a call, by the answer of the lookup. *)
Lemma schedule_cases task_name command_path interval duration_str w :
  (exists e,
      result_of (get_existing_task_details task_name) w = Raise e
      /\ schedule_task iso task_name command_path interval duration_str w []
         = (Raise e, [query_cmd task_name]))
  \/ (exists details,
        result_of (get_existing_task_details task_name) w
        = Return (Some details)
        /\ schedule_task iso task_name command_path interval duration_str w []
           = (Return (already_exists_message details task_name command_path
                        interval duration_str), [query_cmd task_name]))
  \/ (result_of (get_existing_task_details task_name) w = Return None
      /\ schedule_task iso task_name command_path interval duration_str w []
         = create_task iso task_name command_path interval duration_str w
             [query_cmd task_name]).
Proof.
  unfold result_of.
  destruct (get_existing_task_details task_name w []) as [r tr] eqn:E.
  pose proof (lookup_trace _ _ _ _ _ E) as ->. cbn [fst app].
  destruct r as [[d|]|e].
  - right. left. exists d. split; [done|].
    by rewrite (schedule_present iso _ _ _ _ _ _ _ _ E).
  - right. right. split; [done|].
    by rewrite (schedule_absent iso _ _ _ _ _ _ _ E).
  - left. exists e. split; [done|].
    unfold schedule_task, mbind, M_bind. by rewrite E.
Qed.



End CallProperties.

(** ** Reversal and concatenation of texts *)

Section ReverseFacts.

Lemma app_cons c (a b : string) : String c a +:+ b = String c (a +:+ b).
Proof. done. Qed.

Lemma app_assoc_text (a b c : string) : (a +:+ b) +:+ c = a +:+ (b +:+ c).
Proof.
  induction a as [|x a IH]; [done|]. rewrite !app_cons. by rewrite IH.
Qed.

Lemma app_empty_r (a : string) : a +:+ "" = a.
Proof. induction a as [|x a IH]; [done|]. rewrite app_cons. by rewrite IH. Qed.

Lemma rev_app_spec s : forall t, String.rev_app s t = String.rev s +:+ t.
Proof.
  induction s as [|c s IH]; intros t; [done|].
  unfold String.rev. cbn [String.rev_app].
  rewrite (IH (String c t)), (IH (String c "")).
  by rewrite app_assoc_text.
Qed.

Lemma rev_cons c s : String.rev (String c s) = String.rev s +:+ String c "".
Proof. unfold String.rev at 1. cbn [String.rev_app]. apply rev_app_spec. Qed.

Lemma rev_app_distr (a b : string) :
  String.rev (a +:+ b) = String.rev b +:+ String.rev a.
Proof.
  induction a as [|c a IH].
  - by rewrite app_empty_r.
  - rewrite app_cons, !rev_cons, IH. by rewrite app_assoc_text.
Qed.

Lemma rev_involutive_text s : String.rev (String.rev s) = s.
Proof.
  induction s as [|c s IH]; [done|].
  by rewrite rev_cons, rev_app_distr, IH.
Qed.

End ReverseFacts.

(** ** Integer literals *)

Section IntFacts.

Lemma digit_char x :
  (x < 10)%N -> PyInt.digit (pretty_N_char x) = Some (Z.of_N x).
Proof.
  intros H.
  assert (x = 0 \/ x = 1 \/ x = 2 \/ x = 3 \/ x = 4 \/ x = 5 \/ x = 6
          \/ x = 7 \/ x = 8 \/ x = 9)%N as Hx by lia.
  repeat (destruct Hx as [->|Hx]; [reflexivity|]). by subst.
Qed.

Lemma digit_not_space c : PyInt.is_digit c = true -> PyInt.is_blank c = false.
Proof.
  unfold PyInt.is_digit, PyInt.digit, PyInt.is_blank.
  destruct (_ && _) eqn:E; [|done]. intros _. lia.
Qed.

(** The printer puts its digits in front of the text it is given. *)
Lemma pretty_go_app x : forall s, pretty_N_go x s = pretty_N_go x "" +:+ s.
Proof.
  induction (N.lt_wf_0 x) as [x _ IH]; intros s.
  assert (x = 0 \/ 0 < x)%N as [->|Hx] by lia; [done|].
  rewrite !(pretty_N_go_step x) by done.
  assert (x `div` 10 < x)%N as Hlt by (by apply N.div_lt).
  rewrite (IH _ Hlt (String _ s)), (IH _ Hlt (String _ "")).
  by rewrite app_assoc_text.
Qed.

(** Reading back what the printer wrote: the value and the number of
    digits. *)
Lemma digits_pretty_go x : forall s acc count,
  (0 < x)%N ->
  exists k : nat,
    PyInt.digits (pretty_N_go x s) acc count
    = PyInt.digits s (acc * 10 ^ Z.of_nat k + Z.of_N x) (count + k)%nat
    /\ 10 ^ Z.of_nat k <= 10 * Z.of_N x.
Proof.
  induction (N.lt_wf_0 x) as [x _ IH]; intros s acc count Hx.
  rewrite pretty_N_go_step by done.
  pose proof (N.Div0.div_mod x 10) as Hdm.
  pose proof (N.mod_lt x 10 ltac:(done)) as Hm.
  destruct (N.eq_0_gt_0_cases (x `div` 10)) as [H0|Hd].
  - rewrite H0, pretty_N_go_0. exists 1%nat.
    cbn [PyInt.digits]. rewrite digit_char by done.
    replace (x `mod` 10)%N with x by lia.
    change (10 ^ Z.of_nat 1) with 10.
    split; [f_equal; lia|lia].
  - assert (x `div` 10 < x)%N as Hlt by (by apply N.div_lt).
    destruct (IH _ Hlt (String (pretty_N_char (x `mod` 10)) s) acc count Hd)
      as (k & -> & Hk).
    exists (S k). cbn [PyInt.digits]. rewrite digit_char by done.
    rewrite Nat2Z.inj_succ, Z.pow_succ_r by lia.
    assert (Z.of_N x = 10 * Z.of_N (x `div` 10) + Z.of_N (x `mod` 10)) as ->
      by lia.
    pose proof (N2Z.is_nonneg (x `mod` 10)) as Hb.
    generalize dependent (10 ^ Z.of_nat k). intros P HP.
    generalize dependent (Z.of_N (x `mod` 10)).
    generalize dependent (Z.of_N (x `div` 10)). intros a Ha b Hb.
    split; [f_equal; [ring|lia]|lia].
Qed.

Lemma pretty_go_head x s :
  (0 < x)%N ->
  exists c r, pretty_N_go x s = String c r /\ PyInt.is_digit c = true.
Proof.
  revert s. induction (N.lt_wf_0 x) as [x _ IH]; intros s Hx.
  rewrite pretty_N_go_step by done.
  pose proof (N.mod_lt x 10 ltac:(done)) as Hm.
  destruct (N.eq_0_gt_0_cases (x `div` 10)) as [H0|Hd].
  - rewrite H0, pretty_N_go_0. eexists _, _. split; [done|].
    unfold PyInt.is_digit. by rewrite digit_char.
  - apply IH; [by apply N.div_lt|done].
Qed.

Lemma pretty_go_last x :
  (0 < x)%N ->
  exists c r, String.rev (pretty_N_go x "") = String c r
              /\ PyInt.is_digit c = true.
Proof.
  intros Hx. rewrite pretty_N_go_step by done.
  pose proof (N.mod_lt x 10 ltac:(done)) as Hm.
  rewrite pretty_go_app, rev_app_distr.
  eexists _, _. split; [done|].
  unfold PyInt.is_digit. by rewrite digit_char.
Qed.

Lemma lskip_head c r :
  PyInt.is_blank c = false -> PyInt.lskip (String c r) = String c r.
Proof. intros H. cbn [PyInt.lskip]. by rewrite H. Qed.

(** A text that neither starts nor ends with white space is read as it
    is. *)
Lemma skip_id s c r c' r' :
  s = String c r -> PyInt.is_blank c = false ->
  String.rev s = String c' r' -> PyInt.is_blank c' = false ->
  PyInt.skip s = s.
Proof.
  intros -> Hc Hr Hc'. unfold PyInt.skip.
  rewrite lskip_head by done. rewrite Hr, lskip_head by done.
  by rewrite <- Hr, rev_involutive_text.
Qed.

Lemma magnitude_pretty p :
  Z.pos p < 10 ^ Z.of_nat PyInt.max_str_digits ->
  PyInt.magnitude (pretty_N_go (N.pos p) "") = Some (Z.pos p).
Proof.
  intros Hp.
  destruct (pretty_go_head (N.pos p) "" ltac:(done)) as (c & r & E & Hc).
  destruct (digits_pretty_go (N.pos p) "" 0 0%nat ltac:(done))
    as (k & Hk & Hle).
  unfold PyInt.magnitude. rewrite E, Hc, <- E, Hk.
  cbn [PyInt.digits mbind option_bind]. cbn [Nat.add].
  assert (k <= PyInt.max_str_digits)%nat as Hkm.
  { apply Nat.le_ngt. intros Hlt.
    assert (10 ^ Z.of_nat (S PyInt.max_str_digits) <= 10 ^ Z.of_nat k)
      by (apply Z.pow_le_mono_r; lia).
    rewrite Nat2Z.inj_succ, Z.pow_succ_r in H by lia. lia. }
  apply Nat.leb_le in Hkm. rewrite Hkm. f_equal; lia.
Qed.

Lemma of_str_unsigned c r :
  PyInt.is_digit c = true -> PyInt.skip (String c r) = String c r ->
  PyInt.of_str (String c r) = PyInt.magnitude (String c r).
Proof.
  intros Hc Hs. unfold PyInt.of_str. rewrite Hs.
  destruct c as [[] [] [] [] [] [] [] []]; try discriminate Hc; reflexivity.
Qed.

(** Round trip: [int] reads back what [str] wrote. *)
Lemma of_str_str_of_int n :
  Z.abs n < 10 ^ Z.of_nat PyInt.max_str_digits ->
  PyInt.of_str (PyStr.str_of_int n) = Some n.
Proof.
  intros Hn. unfold PyStr.str_of_int, pretty, pretty_Z.
  destruct n as [|p|p]; [done|..].
  - unfold pretty, pretty_positive, pretty, pretty_N.
    rewrite decide_False by done.
    destruct (pretty_go_head (N.pos p) "" ltac:(done)) as (c & r & E & Hc).
    destruct (pretty_go_last (N.pos p) ltac:(done)) as (c' & r' & E' & Hc').
    rewrite E. rewrite of_str_unsigned; [ |done| ].
    + rewrite <- E. by apply magnitude_pretty.
    + rewrite <- E. eapply skip_id; eauto using digit_not_space.
  - unfold pretty, pretty_positive, pretty, pretty_N.
    rewrite decide_False by done.
    destruct (pretty_go_head (N.pos p) "" ltac:(done)) as (c & r & E & Hc).
    destruct (pretty_go_last (N.pos p) ltac:(done)) as (c' & r' & E' & Hc').
    unfold PyInt.of_str.
    rewrite (skip_id _ "-" (pretty_N_go (N.pos p) "") c'
               (r' +:+ "-")); [ |done|done| |by apply digit_not_space].
    + change ("-" +:+ ?s) with (String "-" s). cbv beta iota.
      rewrite magnitude_pretty by (by rewrite Z.abs_neq in Hn by lia).
      done.
    + change ("-" +:+ ?s) with (String "-" s).
      by rewrite rev_cons, E'.
Qed.

End IntFacts.

Section IntShape.

Lemma has_char_app c (a b : string) :
  PyStr.has_char c (a +:+ b) = PyStr.has_char c a || PyStr.has_char c b.
Proof.
  induction a as [|x a IH]; [done|].
  rewrite app_cons. cbn [PyStr.has_char]. rewrite IH. by rewrite orb_assoc.
Qed.

Lemma has_char_rev c s : PyStr.has_char c (String.rev s) = PyStr.has_char c s.
Proof.
  induction s as [|x s IH]; [done|].
  rewrite rev_cons, has_char_app, IH. cbn [PyStr.has_char].
  rewrite orb_false_r. apply orb_comm.
Qed.

Lemma has_char_lskip c s :
  PyStr.has_char c (PyInt.lskip s) = true -> PyStr.has_char c s = true.
Proof.
  induction s as [|x s IH]; [done|]. cbn [PyInt.lskip].
  destruct (PyInt.is_blank x); [|done].
  intros H. cbn [PyStr.has_char]. rewrite IH by done. apply orb_true_r.
Qed.

Lemma has_char_skip c s :
  PyStr.has_char c (PyInt.skip s) = true -> PyStr.has_char c s = true.
Proof.
  unfold PyInt.skip. rewrite has_char_rev. intros H.
  apply has_char_lskip in H. rewrite has_char_rev in H.
  by apply has_char_lskip.
Qed.

Lemma magnitude_head s n :
  PyInt.magnitude s = Some n ->
  exists c r, s = String c r /\ PyInt.is_digit c = true.
Proof.
  destruct s as [|c r]; [done|]. cbn [PyInt.magnitude].
  destruct (PyInt.is_digit c) eqn:E; [eauto|done].
Qed.

Lemma has_char_head c r : PyStr.has_char c (String c r) = true.
Proof. cbn [PyStr.has_char]. by rewrite Ascii.eqb_refl. Qed.

(** A text [int] accepts holds a digit. *)
Lemma of_str_digit s n :
  PyInt.of_str s = Some n ->
  exists c, PyStr.has_char c s = true /\ PyInt.is_digit c = true.
Proof.
  unfold PyInt.of_str. intros H.
  assert (exists t c r, (PyInt.skip s = t \/ exists a, PyInt.skip s = String a t)
                        /\ t = String c r /\ PyInt.is_digit c = true)
    as (t & c & r & Ht & -> & Hc).
  { destruct (PyInt.skip s) as [|a t] eqn:E; [done|].
    destruct (PyInt.magnitude (String a t)) as [m|] eqn:Em.
    - destruct (magnitude_head _ _ Em) as (c & r & Hs & Hc).
      exists (String a t), c, r. eauto.
    - destruct (PyInt.magnitude t) as [m|] eqn:Et.
      + destruct (magnitude_head _ _ Et) as (c & r & Hs & Hc).
        exists t, c, r. eauto.
      + exfalso. revert H.
        destruct a as [[] [] [] [] [] [] [] []];
          rewrite ?Em, ?Et; done. }
  exists c. split; [|done]. apply has_char_skip.
  destruct Ht as [->|[a ->]]; [apply has_char_head|].
  cbn [PyStr.has_char]. rewrite Ascii.eqb_refl. apply orb_true_r.
Qed.

Lemma every_has_char p s c :
  every p s = true -> PyStr.has_char c s = true -> p c = true.
Proof.
  induction s as [|x s IH]; [done|]. cbn [every PyStr.has_char].
  intros [Hx Hs]%andb_true_iff [Hc|Hc]%orb_true_iff; [|by apply IH].
  apply Ascii.eqb_eq in Hc. by subst.
Qed.

Lemma of_str_no_digit s :
  every (fun c => negb (PyInt.is_digit c)) s = true -> PyInt.of_str s = None.
Proof.
  intros H. destruct (PyInt.of_str s) as [n|] eqn:E; [|done].
  destruct (of_str_digit _ _ E) as (c & Hc & Hd).
  pose proof (every_has_char _ _ _ H Hc) as Hn. cbn in Hn.
  by rewrite Hd in Hn.
Qed.

Lemma every_app p (a b : string) :
  every p (a +:+ b) = every p a && every p b.
Proof.
  induction a as [|x a IH]; [done|].
  rewrite app_cons. cbn [every]. rewrite IH. by rewrite andb_assoc.
Qed.

Lemma every_rev p s : every p (String.rev s) = every p s.
Proof.
  induction s as [|x s IH]; [done|].
  rewrite rev_cons, every_app, IH. cbn [every].
  rewrite andb_true_r. apply andb_comm.
Qed.

Lemma lskip_pad pad s :
  every PyInt.is_blank pad = true ->
  PyInt.lskip (pad +:+ s) = PyInt.lskip s.
Proof.
  induction pad as [|c pad IH]; [done|]. cbn [every].
  intros [Hc Hp]%andb_true_iff. rewrite app_cons. cbn [PyInt.lskip].
  rewrite Hc. by apply IH.
Qed.

(** White space around a text that neither starts nor ends with white
    space is skipped. *)
Lemma skip_pad pad pad' s c r c' r' :
  every PyInt.is_blank pad = true -> every PyInt.is_blank pad' = true ->
  s = String c r -> PyInt.is_blank c = false ->
  String.rev s = String c' r' -> PyInt.is_blank c' = false ->
  PyInt.skip (pad +:+ s +:+ pad') = s.
Proof.
  intros Hp Hp' Hs Hc Hr Hc'. unfold PyInt.skip.
  rewrite lskip_pad by done. rewrite Hs, app_cons, lskip_head by done.
  rewrite <- app_cons, <- Hs, rev_app_distr.
  rewrite lskip_pad by (by rewrite every_rev).
  rewrite Hr, lskip_head by done. by rewrite <- Hr, rev_involutive_text.
Qed.

(** What [str] writes neither starts nor ends with white space. *)
Lemma str_of_int_ends n :
  exists c r c' r',
    PyStr.str_of_int n = String c r /\ PyInt.is_blank c = false
    /\ String.rev (PyStr.str_of_int n) = String c' r'
    /\ PyInt.is_blank c' = false.
Proof.
  unfold PyStr.str_of_int, pretty, pretty_Z.
  destruct n as [|p|p]; [by exists "0"%char, "", "0"%char, ""|..];
    unfold pretty, pretty_positive, pretty, pretty_N;
    rewrite decide_False by done;
    destruct (pretty_go_head (N.pos p) "" ltac:(done)) as (c & r & E & Hc);
    destruct (pretty_go_last (N.pos p) ltac:(done)) as (c' & r' & E' & Hc').
  - exists c, r, c', r'.
    split; [done|]. split; [by apply digit_not_space|].
    split; [done|by apply digit_not_space].
  - exists "-"%char, (pretty_N_go (N.pos p) ""), c', (r' +:+ "-").
    split; [done|]. split; [done|].
    split; [|by apply digit_not_space].
    change ("-" +:+ ?s) with (String "-" s). by rewrite rev_cons, E'.
Qed.

End IntShape.

(** ** Stripping and the first word *)

Section StripFacts.

Lemma lstrip_head c r :
  PyStr.isspace c = false -> PyStr.lstrip (String c r) = String c r.
Proof. intros H. cbn [PyStr.lstrip]. by rewrite H. Qed.

Lemma lstrip_pad pad s :
  every PyStr.isspace pad = true ->
  PyStr.lstrip (pad +:+ s) = PyStr.lstrip s.
Proof.
  induction pad as [|c pad IH]; [done|]. cbn [every].
  intros [Hc Hp]%andb_true_iff. rewrite app_cons. cbn [PyStr.lstrip].
  rewrite Hc. by apply IH.
Qed.

Lemma lstrip_app_nonspace a c b :
  PyStr.isspace c = false ->
  PyStr.lstrip (a +:+ String c b) = PyStr.lstrip a +:+ String c b.
Proof.
  intros Hc. induction a as [|x a IH].
  - change ("" +:+ String c b) with (String c b). by rewrite lstrip_head.
  - rewrite app_cons. cbn [PyStr.lstrip]. by destruct (PyStr.isspace x).
Qed.

Lemma rstrip_cons_nonspace c s :
  PyStr.isspace c = false ->
  PyStr.rstrip (String c s) = String c (PyStr.rstrip s).
Proof.
  intros Hc. unfold PyStr.rstrip.
  by rewrite rev_cons, lstrip_app_nonspace, rev_app_distr.
Qed.

Lemma lstrip_snoc a c :
  PyStr.lstrip (a +:+ String c "") = ""
  \/ exists a', PyStr.lstrip (a +:+ String c "") = a' +:+ String c "".
Proof.
  induction a as [|x a IH].
  - change ("" +:+ String c "") with (String c ""). cbn [PyStr.lstrip].
    destruct (PyStr.isspace c); [by left|]. right. by exists "".
  - rewrite app_cons. cbn [PyStr.lstrip].
    destruct (PyStr.isspace x); [done|]. right. by exists (String x a).
Qed.

(** Stripping on the right leaves nothing or leaves the first
    character in place. *)
Lemma rstrip_head c s :
  PyStr.rstrip (String c s) = ""
  \/ exists r, PyStr.rstrip (String c s) = String c r.
Proof.
  unfold PyStr.rstrip. rewrite rev_cons.
  destruct (lstrip_snoc (String.rev s) c) as [->|[a' ->]]; [by left|].
  right. rewrite rev_app_distr. by eexists.
Qed.

Lemma rstrip_word word tail :
  every (fun c => negb (PyStr.isspace c)) word = true ->
  PyStr.rstrip (word +:+ tail) = word +:+ PyStr.rstrip tail.
Proof.
  induction word as [|c word IH]; [done|]. cbn [every].
  intros [Hc Hw]%andb_true_iff. apply negb_true_iff in Hc.
  rewrite !app_cons, rstrip_cons_nonspace by done. by rewrite IH.
Qed.

Lemma split_word word :
  every (fun c => negb (PyStr.isspace c)) word = true ->
  PyStr.split " " None word = [word]
  /\ forall r, PyStr.split " " None (word +:+ String " " r)
               = word :: PyStr.split " " None r.
Proof.
  induction word as [|c word IH]; [done|]. cbn [every].
  intros [Hc Hw]%andb_true_iff. apply negb_true_iff in Hc.
  destruct (IH Hw) as [H1 H2].
  assert (Ascii.eqb c " " = false) as Hs.
  { apply Ascii.eqb_neq. by intros ->. }
  split.
  - cbn [PyStr.split]. rewrite Hs. cbn [andb]. by rewrite H1.
  - intros r. rewrite app_cons. cbn [PyStr.split]. rewrite Hs. cbn [andb].
    by rewrite H2.
Qed.

(** The first word of a text: blanks, a word, and nothing or a space
    and more. *)
Lemma first_word pad word tail :
  every PyStr.isspace pad = true ->
  every (fun c => negb (PyStr.isspace c)) word = true -> word <> "" ->
  tail = "" \/ (exists r, tail = String " " r) ->
  getitem (PyStr.split " " None (PyStr.strip (pad +:+ word +:+ tail))) 0
  = Return word.
Proof.
  intros Hp Hw Hne Ht. unfold PyStr.strip. rewrite lstrip_pad by done.
  destruct word as [|c word]; [done|]. clear Hne.
  assert (PyStr.isspace c = false) as Hc.
  { cbn [every] in Hw. apply andb_true_iff in Hw as [Hc _].
    by apply negb_true_iff. }
  rewrite app_cons, lstrip_head by done. rewrite <- app_cons.
  rewrite rstrip_word by done.
  destruct (split_word _ Hw) as [H1 H2].
  assert (PyStr.rstrip tail = "" \/ exists r, PyStr.rstrip tail = String " " r)
    as [->|[r ->]].
  { destruct Ht as [->|[r ->]]; [by left|]. apply rstrip_head. }
  - by rewrite app_empty_r, H1.
  - rewrite H2. done.
Qed.

End StripFacts.

Section IntervalFacts.

Lemma prefix_app_l a p s :
  String.prefix p s = true -> String.prefix (a +:+ p) (a +:+ s) = true.
Proof.
  intros H. induction a as [|c a IH]; [done|].
  rewrite !app_cons. cbn [String.prefix].
  by destruct (ascii_dec c c).
Qed.

Lemma prefix_app_r p : forall s t,
  String.prefix p s = true -> String.prefix p (s +:+ t) = true.
Proof.
  induction p as [|c p IH]; intros s t H; [apply prefix_nil_l|].
  destruct s as [|x s]; [done|]. rewrite app_cons.
  cbn [String.prefix] in *. destruct (ascii_dec c x); [by apply IH|done].
Qed.

(** A repeat line with a key, a space and a value records the first word
    of the value. *)
Lemma scan_line_repeat details key pad word tail :
  PyStr.startswith key "Every" = true ->
  PyStr.has_char " " key = false ->
  every PyStr.isspace pad = true ->
  every (fun c => negb (PyStr.isspace c)) word = true -> word <> "" ->
  tail = "" \/ (exists r, tail = String " " r) ->
  scan_line details ("Repeat: " +:+ key +:+ " " +:+ pad +:+ word +:+ tail)
  = Return (<["Interval" := word]> details).
Proof.
  intros Hk Hs Hp Hw Hne Ht. unfold scan_line.
  assert (PyStr.startswith
            ("Repeat: " +:+ key +:+ " " +:+ pad +:+ word +:+ tail)
            "Repeat: Every" = true) as H3.
  { unfold PyStr.startswith in *.
    change "Repeat: Every" with ("Repeat: " +:+ "Every").
    by apply prefix_app_l, prefix_app_r. }
  destruct (repeat_is_no_task _ H3) as [H1 H2].
  rewrite H1, H2, H3.
  change ("Repeat: " +:+ ?s) with ("Repeat:" +:+ String " " s).
  rewrite split_app_sep by reflexivity.
  change (key +:+ " " +:+ ?s) with (key +:+ String " " s).
  rewrite split_app_sep by done. rewrite split_zero.
  cbn [getitem]. cbn.
  by rewrite first_word.
Qed.

Lemma scan_line_keeps_interval details line details' :
  scan_line details line = Return details' ->
  PyStr.startswith line "Repeat: Every" = false ->
  details' !! "Interval" = details !! "Interval".
Proof.
  unfold scan_line, mret, outcome_ret. intros H H2. rewrite H2 in H.
  destruct (PyStr.startswith line "Task Name:").
  { destruct (getitem _ 1); cbn in H; simplify_eq.
    by rewrite lookup_insert_ne. }
  destruct (PyStr.startswith line "Task To Run:").
  { destruct (getitem _ 1); cbn in H; simplify_eq.
    by rewrite lookup_insert_ne. }
  destruct (PyStr.startswith line "Duration:").
  { destruct (getitem _ 1); cbn in H; simplify_eq.
    by rewrite lookup_insert_ne. }
  by simplify_eq.
Qed.

Lemma scan_lines_keep_interval lines : forall details details',
  scan_lines details lines = Return details' ->
  Forall (fun line => PyStr.startswith line "Repeat: Every" = false) lines ->
  details' !! "Interval" = details !! "Interval".
Proof.
  induction lines as [|line rest IH]; intros details details' H Hf.
  { cbn in H. unfold mret, outcome_ret in H. by simplify_eq. }
  apply Forall_cons in Hf as [Hl Hr]. cbn [scan_lines] in H.
  destruct (scan_line details line) as [d1|] eqn:E; cbn in H; [|done].
  rewrite (IH _ _ H Hr). by eapply scan_line_keeps_interval.
Qed.

(** X13.  The interval of the snapshot is the first word after the key
    of the last repeat line: for a line [Repeat: Every...] made of the
    key, a space, blanks, a word and nothing or a space and more, the
    snapshot records the word. *)
Theorem lookup_interval task_name w out err before key pad word tail after
    details :
  run_process w (query_cmd task_name) = Exited 0 out err ->
  PyStr.splitlines out
  = before ++ ("Repeat: " +:+ key +:+ " " +:+ pad +:+ word +:+ tail) :: after ->
  PyStr.startswith key "Every" = true ->
  PyStr.has_char " " key = false ->
  every PyStr.isspace pad = true ->
  every (fun c => negb (PyStr.isspace c)) word = true -> word <> "" ->
  tail = "" \/ (exists r, tail = String " " r) ->
  Forall (fun line => PyStr.startswith line "Repeat: Every" = false) after ->
  result_of (get_existing_task_details task_name) w = Return (Some details) ->
  details !! "Interval" = Some word.
Proof.
  intros Hrun Hlines Hk Hs Hp Hw Hne Ht Hafter Hres.
  rewrite (lookup_exit_zero _ _ _ _ Hrun), Hlines in Hres.
  rewrite scan_lines_app in Hres.
  destruct (scan_lines ∅ before) as [d0|]; cbn in Hres; [|done].
  cbn [scan_lines] in Hres. rewrite scan_line_repeat in Hres by done.
  cbn in Hres.
  destruct (scan_lines _ after) as [d1|] eqn:Hd1; [|done].
  destruct (bool_decide (d1 ≠ ∅)); simplify_eq.
  rewrite (scan_lines_keep_interval _ _ _ Hd1 Hafter).
  apply lookup_insert_eq.
Qed.

End IntervalFacts.

(** ** The float of [total_seconds], from both sides *)

Section TruncationFacts.

(** The second normalisation of [binary_round_aux] keeps the value. *)
Lemma round_aux_finish_value sx m1 e1 :
  2 ^ 52 <= m1 <= 2 ^ 53 -> -1000 <= e1 <= -2 ->
  exists m e,
    (let '(mrs, e'') := shr_fexp PyFloat.prec PyFloat.emax m1 e1 loc_Exact in
     match shr_m mrs with
     | Z0 => S754_zero sx
     | Zpos m => if e'' <=? PyFloat.emax - PyFloat.prec
                 then S754_finite sx m e'' else S754_infinity sx
     | Zneg _ => S754_nan
     end) = S754_finite sx m e
    /\ e < 0 /\ Zpos m / 2 ^ (- e) = m1 / 2 ^ (- e1).
Proof.
  intros Hm He.
  destruct (Z_lt_le_dec m1 (2 ^ 53)) as [Hlt | Hge].
  - rewrite shr_fexp_keep by lia. cbn [shr_record_of_loc shr_m].
    destruct m1 as [|p|p]; try lia.
    exists p, e1. split; [|lia].
    replace (e1 <=? PyFloat.emax - PyFloat.prec) with true; [done|].
    in_range.
  - assert (m1 = 2 ^ 53) as -> by lia.
    rewrite shr_fexp_once by lia.
    exists (2 ^ 52)%positive, (e1 + 1). split; [|split; [lia|]].
    + cbn [shr_record_of_loc]. change (shr_m (shr_1 _)) with (Zpos (2 ^ 52)).
      cbv iota beta.
      replace (e1 + 1 <=? PyFloat.emax - PyFloat.prec) with true; [done|].
      in_range.
    + replace (- e1) with (1 + - (e1 + 1)) by lia.
      rewrite Z.pow_add_r by lia. change (2 ^ 1) with 2.
      change (2 ^ 53) with (2 * 2 ^ 52). change (Zpos (2 ^ 52)) with (2 ^ 52).
      rewrite Z.div_mul_cancel_l; lia.
Qed.

(** Rounding to 53 bits stays within two units of the last place of the
    quotient. *)
Lemma round_aux_upper sx q e l :
  2 ^ 52 <= q < 2 ^ 54 -> -1000 <= e <= -3 ->
  exists m e',
    binary_round_aux PyFloat.prec PyFloat.emax sx q e l = S754_finite sx m e'
    /\ e' < 0
    /\ q / 2 ^ (- e) <= Zpos m / 2 ^ (- e') <= (q + 2) / 2 ^ (- e).
Proof.
  intros Hq He. unfold binary_round_aux.
  assert (Hp : 0 < 2 ^ (- e)) by pow_pos.
  destruct (Z_lt_le_dec q (2 ^ 53)) as [Hlt | Hge].
  - rewrite shr_fexp_keep by lia.
    rewrite shr_m_of_loc.
    set (m1 := round_nearest_even q _).
    assert (Hm1 : q <= m1 <= q + 1) by apply round_nearest_even_bounds.
    destruct (round_aux_finish_value sx m1 e)
      as (m & e' & -> & He' & Hv); [lia..|].
    exists m, e'. split; [done|]. split; [done|]. rewrite Hv.
    split; apply Z.div_le_mono; lia.
  - rewrite shr_fexp_once by lia.
    set (mrs := shr_1 _).
    assert (Hm0 : shr_m mrs = q / 2).
    { unfold mrs. rewrite shr_1_m; rewrite shr_m_of_loc; [done|lia]. }
    set (m1 := round_nearest_even (shr_m mrs) _).
    assert (Hm1 : q / 2 <= m1 <= q / 2 + 1).
    { rewrite <- Hm0. apply round_nearest_even_bounds. }
    assert (Hh : 2 ^ 52 <= q / 2 < 2 ^ 53).
    { change (2 ^ 53) with (2 * 2 ^ 52) in Hge.
      change (2 ^ 54) with (2 * 2 ^ 53) in Hq.
      split; [apply Z.div_le_lower_bound; lia
             |apply Z.div_lt_upper_bound; lia]. }
    destruct (round_aux_finish_value sx m1 (e + 1))
      as (m & e' & -> & He' & Hv); [lia..|].
    exists m, e'. split; [done|]. split; [done|]. rewrite Hv.
    assert (Hp' : 0 < 2 ^ (- (e + 1))) by pow_pos.
    assert (Hpow : 2 ^ (- e) = 2 * 2 ^ (- (e + 1))).
    { replace (- e) with (1 + - (e + 1)) by lia.
      by rewrite Z.pow_add_r by lia. }
    rewrite Hpow, <- !Z.div_div by lia.
    replace ((q + 2) / 2) with (q / 2 + 1).
    2:{ replace (q + 2) with (q + 1 * 2) by lia.
        by rewrite Z.div_add by lia. }
    split; apply Z.div_le_mono; lia.
Qed.

(** Below [2^51] the quotient by [10^6] is far enough from the next
    whole number for the rounding not to reach it. *)
Lemma true_divide_value sx t :
  Zpos t < 2 ^ 51 ->
  exists m e,
    SFdiv PyFloat.prec PyFloat.emax (S754_finite sx t 0)
      (S754_finite false 1000000 0)
    = S754_finite sx m e
    /\ e < 0 /\ Zpos m / 2 ^ (- e) = Zpos t / 1000000.
Proof.
  intros Ht.
  assert (Ht70 : Zpos t < 2 ^ 70).
  { eapply Z.lt_le_trans; [exact Ht|]. by vm_compute. }
  destruct (div_core_general t Ht70) as (Hs & Hq & l & Hcore).
  cbv zeta in Hs, Hq, Hcore.
  unfold SFdiv. rewrite Hcore.
  set (s := 73 - Zpos (digits2_pos t)) in *.
  set (q := Zpos t * 2 ^ s / 1000000) in *.
  assert (Hs22 : 22 <= s).
  { pose proof (digits_bounds t) as [Dlo Dhi].
    destruct (Z_le_gt_dec (Zpos (digits2_pos t)) 51); [unfold s; lia|].
    assert (2 ^ 51 <= 2 ^ (Zpos (digits2_pos t) - 1))
      by (apply Z.pow_le_mono_r; lia).
    lia. }
  destruct (round_aux_upper (xorb sx false) q (- s) l)
    as (m & e & -> & He & Hlo & Hhi); [lia..|].
  rewrite xorb_false_r. exists m, e. split; [done|]. split; [done|].
  replace (- - s) with s in * by lia.
  assert (HP : 2 ^ 22 <= 2 ^ s) by (apply Z.pow_le_mono_r; lia).
  change (2 ^ 22) with 4194304 in HP.
  pose proof (Z.div_mod (Zpos t) 1000000 ltac:(done)) as Hdm.
  pose proof (Z.mod_pos_bound (Zpos t) 1000000 ltac:(done)) as Hr.
  pose proof (Z.div_mod (Zpos t * 2 ^ s) 1000000 ltac:(done)) as Hqm.
  pose proof (Z.mod_pos_bound (Zpos t * 2 ^ s) 1000000 ltac:(done)) as Hqr.
  fold q in Hqm.
  generalize dependent (Zpos t * 2 ^ s mod 1000000). intros r' Hqm Hqr.
  generalize dependent (Zpos t mod 1000000). intros r Hdm Hr.
  generalize dependent (Zpos t / 1000000). intros Q Hdm.
  generalize dependent (2 ^ s). intros P q Hq Hcore Hlo Hhi HP Hqm.
  clearbody q.
  apply Z.le_antisymm.
  - etrans; [exact Hhi|].
    apply Z.lt_succ_r, Z.div_lt_upper_bound; [lia|]. nia.
  - etrans; [|exact Hlo].
    apply Z.div_le_lower_bound; [lia|]. nia.
Qed.

(** [int(a / 10**6)] for an [int] below [2^51] in absolute value: the
    quotient, truncated towards zero. *)
Lemma to_int_true_divide_trunc n :
  - 2 ^ 51 < n < 2 ^ 51 ->
  PyFloat.to_int (PyFloat.int_true_divide n 1000000) = Z.quot n 1000000.
Proof.
  intros Hn. unfold PyFloat.int_true_divide.
  destruct n as [|t|t]; [done|..].
  - change (PyFloat.of_int (Zpos t)) with (S754_finite false t 0).
    change (PyFloat.of_int 1000000) with (S754_finite false 1000000 0).
    destruct (true_divide_value false t) as (m & e & -> & He & Hv); [lia|].
    unfold PyFloat.to_int.
    replace (0 <=? e) with false by (symmetry; apply Z.leb_gt; lia).
    rewrite Z.shiftr_div_pow2 by lia. rewrite Hv.
    by rewrite Z.quot_div_nonneg by lia.
  - change (PyFloat.of_int (Zneg t)) with (S754_finite true t 0).
    change (PyFloat.of_int 1000000) with (S754_finite false 1000000 0).
    destruct (true_divide_value true t) as (m & e & -> & He & Hv); [lia|].
    unfold PyFloat.to_int.
    replace (0 <=? e) with false by (symmetry; apply Z.leb_gt; lia).
    rewrite Z.shiftr_div_pow2 by lia. rewrite Hv.
    change (Zneg t) with (- Zpos t).
    rewrite Z.quot_opp_l by done.
    by rewrite Z.quot_div_nonneg by lia.
Qed.

(** Hours and minutes of a span given in microseconds. *)
Lemma hm_split h m us :
  0 <= m < 60 -> 0 <= us < 60000000 ->
  let n := ((h * 60 + m) * 60000000 + us) / 1000000 in
  n / 3600 = h /\ (n mod 3600) / 60 = m.
Proof.
  intros Hm Hus n.
  pose proof (Z.div_mod us 1000000 ltac:(done)) as Hdm.
  pose proof (Z.mod_pos_bound us 1000000 ltac:(done)) as Hr.
  assert (Hs : 0 <= us / 1000000 < 60).
  { split; [apply Z.div_pos; lia|apply Z.div_lt_upper_bound; lia]. }
  assert (Hn : n = h * 3600 + m * 60 + us / 1000000).
  { unfold n. symmetry.
    apply (Z.div_unique _ _ _ (us mod 1000000)); lia. }
  rewrite Hn. by apply hms_split.
Qed.

End TruncationFacts.

(** X14.  [int(duration.total_seconds())] is the whole number of
    seconds of the span, truncated towards zero, for every span below
    [2^51] microseconds (71 years) in absolute value: the detour through
    a float loses nothing there. *)
Theorem int_total_seconds_truncates d :
  - 2 ^ 51 < to_microseconds d < 2 ^ 51 ->
  PyFloat.to_int (total_seconds d) = Z.quot (to_microseconds d) 1000000.
Proof. intros H. unfold total_seconds. by apply to_int_true_divide_trunc. Qed.

(** X15.  A span of [h] hours, [m] minutes and less than a minute more,
    fractions of a second included, is formatted as [h] and [m] padded
    to two digits: what is below the minute is dropped. *)
Theorem format_drops_below_minute d h m us :
  to_microseconds d = (h * 60 + m) * 60000000 + us ->
  0 <= h -> 0 <= m < 60 -> 0 <= us < 60000000 ->
  to_microseconds d < 2 ^ 51 ->
  format_duration_for_schtasks d
  = PyStr.zfill 2 (pretty h) +:+ ":" +:+ PyStr.zfill 2 (pretty m).
Proof.
  intros Hus Hh Hm Hu Hb. unfold format_duration_for_schtasks, total_seconds.
  rewrite to_int_true_divide_trunc by lia.
  rewrite Z.quot_div_nonneg by lia. rewrite Hus.
  destruct (hm_split h m us Hm Hu) as [-> ->].
  unfold PyStr.format_02.
  by rewrite (proj2 (Z.ltb_ge h 0)), (proj2 (Z.ltb_ge m 0)) by lia.
Qed.

(** ** The graphical form *)

Section FormProperties.

Context {Duration : Type}.
Variable iso : string -> isodate_result Duration.

(** Every call starts with the query. *)
Lemma schedule_trace_head task_name command_path interval duration_str w :
  exists rest,
    snd (schedule_task iso task_name command_path interval duration_str w [])
    = query_cmd task_name :: rest.
Proof.
  destruct (schedule_cases iso task_name command_path interval duration_str w)
    as [(e & _ & ->)|[(d & _ & ->)|(_ & ->)]]; [by eexists..|].
  rewrite create_run.
  destruct (parse_iso_duration iso duration_str); by eexists.
Qed.

Lemma is_empty_false s : s <> "" -> is_empty s = false.
Proof. intros H. unfold is_empty. by apply bool_decide_eq_false_2. Qed.

Lemma is_empty_true s : is_empty s = true <-> s = "".
Proof. unfold is_empty. apply bool_decide_eq_true. Qed.

(** The four tests of line 205. *)
Lemma fields_empty f :
  is_empty (task_name_input f) || is_empty (command_input f)
  || is_empty (interval_input f) || is_empty (duration_input f) = true
  <-> task_name_input f = "" \/ command_input f = ""
      \/ interval_input f = "" \/ duration_input f = "".
Proof. rewrite !orb_true_iff, !is_empty_true. tauto. Qed.

(** The slot on a form that passes both checks. *)
Lemma schedule_accepted f w tr n :
  task_name_input f <> "" -> command_input f <> "" ->
  interval_input f <> "" -> duration_input f <> "" ->
  PyInt.of_str (interval_input f) = Some n ->
  schedule iso f w tr
  = match schedule_task iso (task_name_input f) (command_input f) n
            (duration_input f) w tr with
    | (Return message, tr') =>
        (Return (), [Information "Task Scheduler" message], tr')
    | (Raise e, tr') => (Raise e, [], tr')
    end.
Proof.
  intros H1 H2 H3 H4 Hn. unfold schedule.
  rewrite !is_empty_false by done. cbn [orb]. by rewrite Hn.
Qed.

(** X8.  The slot runs no command exactly when a field is empty or the
    interval is no integer literal; it then shows one warning titled
    "Input Error" and returns. *)
Theorem schedule_form_rejected f w :
  (snd (schedule iso f w []) = []
   <-> task_name_input f = "" \/ command_input f = ""
       \/ interval_input f = "" \/ duration_input f = ""
       \/ PyInt.of_str (interval_input f) = None)
  /\ (snd (schedule iso f w []) = [] ->
      exists text,
        schedule iso f w [] = (Return (), [Warning "Input Error" text], [])).
Proof.
  unfold schedule.
  destruct (_ || _) eqn:E.
  - apply fields_empty in E. cbn [snd]. split; [|by eauto]. split; [|done].
    intros _. tauto.
  - destruct (PyInt.of_str (interval_input f)) as [n|] eqn:Hn.
    + destruct (schedule_trace_head (task_name_input f) (command_input f) n
                  (duration_input f) w) as [rest Hrest].
      destruct (schedule_task iso _ _ _ _ w []) as [[message|e] tr'];
        cbn [snd] in *; subst tr'.
      * split; [|done]. split; [done|]. intros H.
        assert (task_name_input f = "" \/ command_input f = ""
                \/ interval_input f = "" \/ duration_input f = "") as H'
          by (destruct H as [?|[?|[?|[?|?]]]]; [tauto..|done]).
        apply fields_empty in H'. congruence.
      * split; [|done]. split; [done|]. intros H.
        assert (task_name_input f = "" \/ command_input f = ""
                \/ interval_input f = "" \/ duration_input f = "") as H'
          by (destruct H as [?|[?|[?|[?|?]]]]; [tauto..|done]).
        apply fields_empty in H'. congruence.
    + cbn [snd]. split; [|by eauto]. split; [|done]. intros _. tauto.
Qed.


(** X10.  An interval typed as the decimal writing of a number reaches
    the creation command as it was typed: for a form without an empty
    field, a task the lookup reports as absent and a duration that
    parses, the slot runs the query and the creation command, whose
    interval argument is the text of the field, and shows the message of
    the creation. *)
Theorem schedule_form_interval f w n duration_td :
  task_name_input f <> "" -> command_input f <> "" ->
  duration_input f <> "" ->
  interval_input f = PyStr.str_of_int n ->
  Z.abs n < 10 ^ Z.of_nat PyInt.max_str_digits ->
  result_of (get_existing_task_details (task_name_input f)) w = Return None ->
  parse_iso_duration iso (duration_input f) = Return duration_td ->
  exists cmd,
    cmd = create_cmd (task_name_input f) (command_input f)
            (strftime_HM (start_instant w)) n
            (format_duration_for_schtasks duration_td)
    /\ cmd !! 11%nat = Some (interval_input f)
    /\ schedule iso f w []
       = (match run_process w cmd with
          | Exited rc out err =>
              (Return (),
               [Information "Task Scheduler"
                  (if rc =? 0 then success_message (task_name_input f) out
                   else failure_message (task_name_input f) err)])
          | NotStarted reason => (Raise (OSError reason), [])
          end, [query_cmd (task_name_input f); cmd]).
Proof.
  intros H1 H2 H4 Hi Hn Hl Hp.
  pose proof (of_str_str_of_int n Hn) as Hr. rewrite <- Hi in Hr.
  assert (interval_input f <> "") as H3.
  { intros E. by rewrite E in Hr. }
  eexists. split; [done|]. split; [by rewrite Hi|].
  rewrite (schedule_accepted f w [] n) by done.
  destruct (schedule_cases iso (task_name_input f) (command_input f) n
              (duration_input f) w)
    as [(e & Hl' & _)|[(d & Hl' & _)|(_ & ->)]]; [congruence..|].
  rewrite create_run, Hp. cbv zeta.
  destruct (run_process w _) as [rc out err|reason]; [|done].
  by destruct (rc =? 0).
Qed.

(** X11.  An interval field without a digit, such as a blank one, is
    answered by the warning that the interval must be a number, and no
    command is run. *)
Theorem schedule_form_no_digit f w :
  task_name_input f <> "" -> command_input f <> "" ->
  interval_input f <> "" -> duration_input f <> "" ->
  every (fun c => negb (PyInt.is_digit c)) (interval_input f) = true ->
  schedule iso f w []
  = (Return (),
     [Warning "Input Error" "Interval must be a valid number."], []).
Proof.
  intros H1 H2 H3 H4 Hd. unfold schedule.
  rewrite !is_empty_false by done. cbn [orb].
  by rewrite of_str_no_digit.
Qed.

End FormProperties.

(** X7.  Round trip of line 210 with line 73: [int] reads back the
    number [str] wrote, with or without white space around it, for every
    number within the digit limit of the interpreter. *)
Theorem int_reads_str n pad pad' :
  Z.abs n < 10 ^ Z.of_nat PyInt.max_str_digits ->
  every PyInt.is_blank pad = true -> every PyInt.is_blank pad' = true ->
  PyInt.of_str (pad +:+ PyStr.str_of_int n +:+ pad') = Some n.
Proof.
  intros Hn Hp Hp'.
  destruct (str_of_int_ends n) as (c & r & c' & r' & Hs & Hc & Hr & Hc').
  pose proof (of_str_str_of_int n Hn) as H. unfold PyInt.of_str in *.
  rewrite (skip_pad pad pad' _ c r c' r') by done.
  by rewrite (skip_id _ c r c' r') in H by done.
Qed.

(** X12.  The window is placed so that the margins on both sides differ
    by at most one pixel, the larger one on the right and at the bottom;
    a window larger than the screen is moved to a negative position. *)
Theorem center_margins screen_width screen_height width height :
  let (x, y) := center screen_width screen_height width height in
  0 <= (screen_width - width - x) - x <= 1
  /\ 0 <= (screen_height - height - y) - y <= 1
  /\ (x < 0 <-> screen_width < width)
  /\ (y < 0 <-> screen_height < height).
Proof.
  unfold center.
  pose proof (Z.div_mod (screen_width - width) 2 ltac:(done)).
  pose proof (Z.mod_pos_bound (screen_width - width) 2 ltac:(done)).
  pose proof (Z.div_mod (screen_height - height) 2 ltac:(done)).
  pose proof (Z.mod_pos_bound (screen_height - height) 2 ltac:(done)).
  lia.
Qed.

(** * The further properties on the sample environments *)

(** The lines of the listing with all four keys. *)
Lemma full_listing_lines :
  PyStr.splitlines Samples.full_listing
  = ["Task Name: Backup"; "Task To Run: C:\old\backup.bat";
     "Repeat: Every: 15 Minute(s)"; "Duration: 02:00"].
Proof. by vm_compute. Qed.

(** A witness of X1: the output [Repeat: Every] makes the lookup and the
    whole call raise. *)
Lemma lookup_index_error_iff_witness :
  result_of (get_existing_task_details "Backup") Forms.short_listing
  = Raise (IndexError "list index out of range")
  /\ schedule_task Samples.isodate "Backup" Samples.script 30 "PT3H"
       Forms.short_listing []
     = (Raise (IndexError "list index out of range"), [query_cmd "Backup"]).
Proof.
  pose proof (lookup_index_error_iff Samples.isodate "Backup"
                Forms.short_listing "Repeat: Every" "" eq_refl)
    as [Hiff Hall].
  assert (H : result_of (get_existing_task_details "Backup")
                Forms.short_listing
              = Raise (IndexError "list index out of range")).
  { apply Hiff. exists "Repeat: Every".
    split; [apply list_elem_of_here|]. split; [reflexivity|].
    vm_compute. lia. }
  split; [exact H|].
  exact (proj2 (Hall _ H) Samples.script 30 "PT3H").
Defined.

(** A witness of X2, on the listing with all four keys and on the output
    without a recognised line. *)
Lemma lookup_present_iff_witness :
  (exists details,
      result_of (get_existing_task_details "Backup") Samples.listed
      = Return (Some details))
  /\ result_of (get_existing_task_details "Backup") Samples.unrecognised
     = Return None.
Proof.
  split.
  - apply (proj1 (lookup_present_iff "Backup" Samples.listed
                    Samples.full_listing "" eq_refl
                    ltac:(rewrite full_listing_lines;
                          repeat constructor))).
    exists "Task Name: Backup". rewrite full_listing_lines.
    split; [apply list_elem_of_here|reflexivity].
  - apply (proj2 (lookup_present_iff "Backup" Samples.unrecognised
                    "INFO: scheduler is busy" "" eq_refl
                    ltac:(repeat constructor))).
    intros line Hl. apply list_elem_of_singleton in Hl. by subst.
Defined.

(** A witness of X3, on the listing with all four keys. *)
Lemma lookup_snapshot_keys_witness :
  Samples.listed_details <> ∅
  /\ (is_Some (Samples.listed_details !! "Interval")
      /\ "Interval" ∈ details_keys).
Proof.
  pose proof (lookup_snapshot_keys "Backup" Samples.listed
                Samples.listed_details lookup_listed) as [Hne Hkeys].
  split; [exact Hne|].
  assert (Hi : is_Some (Samples.listed_details !! "Interval"))
    by (exists "15"; by vm_compute).
  split; [exact Hi | exact (Hkeys _ Hi)].
Defined.

(** A witness of X4, on the duration of the listing with all four keys:
    the colon of [02:00] stays. *)
Lemma lookup_colon_key_witness :
  Samples.listed_details !! "Duration" = Some "02:00".
Proof.
  apply (lookup_colon_key "Backup" Samples.listed Samples.full_listing ""
           "Duration:" "Duration"
           ["Task Name: Backup"; "Task To Run: C:\old\backup.bat";
            "Repeat: Every: 15 Minute(s)"]
           " 02:00" [] Samples.listed_details eq_refl).
  - unfold colon_keys. rewrite !elem_of_cons. tauto.
  - exact full_listing_lines.
  - constructor.
  - exact lookup_listed.
Defined.


(** A witness of X7: thirty between a space and a tabulation, and minus
    five as it stands. *)
Lemma int_reads_str_witness :
  PyInt.of_str (" " +:+ PyStr.str_of_int 30 +:+ String "009" "") = Some 30
  /\ PyInt.of_str ("" +:+ PyStr.str_of_int (-5) +:+ "") = Some (-5).
Proof.
  split; apply int_reads_str; by vm_compute.
Defined.

(** A witness of X10: the form filled in for [Backup], the task absent
    so far, with the interval [30] and with the interval [-5], which the
    form passes on as it does any other number. *)
Lemma schedule_form_interval_witness :
  schedule Samples.isodate Forms.backup Samples.fresh []
  = (Return (),
     [Information "Task Scheduler"
        ("Task 'Backup' scheduled successfully." +:+ PyStr.nl +:+
         "SUCCESS: The scheduled task has successfully been created.")],
     [query_cmd "Backup";
      ["schtasks"; "/create"; "/tn"; "Backup"; "/sc"; "DAILY";
       "/tr"; Samples.script; "/st"; "14:08"; "/ri"; "30";
       "/du"; "03:00"; "/f"]])
  /\ snd (schedule Samples.isodate Forms.negative Samples.fresh [])
     = [query_cmd "Backup";
        ["schtasks"; "/create"; "/tn"; "Backup"; "/sc"; "DAILY";
         "/tr"; Samples.script; "/st"; "14:08"; "/ri"; "-5";
         "/du"; "03:00"; "/f"]].
Proof.
  split.
  - destruct (schedule_form_interval Samples.isodate Forms.backup
                Samples.fresh 30 (timedelta_hms 3 0 0))
      as (cmd & -> & _ & ->);
      [done | done | done | reflexivity | by vm_compute
      | exact lookup_fresh | reflexivity | ].
    by vm_compute.
  - destruct (schedule_form_interval Samples.isodate Forms.negative
                Samples.fresh (-5) (timedelta_hms 3 0 0))
      as (cmd & -> & _ & ->);
      [done | done | done | reflexivity | by vm_compute
      | exact lookup_fresh | reflexivity | ].
    by vm_compute.
Defined.

(** A witness of X11: one space as the interval. *)
Lemma schedule_form_no_digit_witness :
  schedule Samples.isodate Forms.blank_interval Samples.fresh []
  = (Return (),
     [Warning "Input Error" "Interval must be a valid number."], []).
Proof.
  apply schedule_form_no_digit; [done | done | done | done | reflexivity].
Defined.

(** A witness of X13, on the listing with all four keys. *)
Lemma lookup_interval_witness :
  Samples.listed_details !! "Interval" = Some "15".
Proof.
  apply (lookup_interval "Backup" Samples.listed Samples.full_listing ""
           ["Task Name: Backup"; "Task To Run: C:\old\backup.bat"]
           "Every:" "" "15" " Minute(s)" ["Duration: 02:00"]
           Samples.listed_details eq_refl).
  - exact full_listing_lines.
  - reflexivity.
  - reflexivity.
  - reflexivity.
  - reflexivity.
  - done.
  - right. by eexists.
  - repeat constructor.
  - exact lookup_listed.
Defined.

(** A witness of X14: half a second before zero is truncated to zero,
    one and a half seconds before zero to minus one. *)
Lemma int_total_seconds_truncates_witness :
  PyFloat.to_int (total_seconds (of_microseconds (-500000))) = 0
  /\ PyFloat.to_int (total_seconds (of_microseconds (-1500000))) = -1.
Proof.
  split.
  - rewrite (int_total_seconds_truncates (of_microseconds (-500000)));
      by vm_compute.
  - rewrite (int_total_seconds_truncates (of_microseconds (-1500000)));
      by vm_compute.
Defined.

(** A witness of X15: one hour, thirty minutes and half a second. *)
Lemma format_drops_below_minute_witness :
  format_duration_for_schtasks Forms.ninety_minutes_and_a_half_second
  = "01:30".
Proof.
  apply (format_drops_below_minute Forms.ninety_minutes_and_a_half_second
           1 30 500000); [reflexivity | lia | lia | lia | by vm_compute].
Defined.
